(** * The Claude Web hook ([server/resources/claude-web-state.py])

    A shallow embedding of the hook script and the properties of its
    event normalisation and decision relay.

    The script is started once per lifecycle event.  It decodes one JSON
    value from standard input, builds an outbound record, writes it to a
    Unix socket and, for a permission request, waits for the monitor's
    decision and prints a directive for the calling tool.

    Conventions of the model:
    - a decoded JSON value is a [json]; a Python [dict] with string keys is
      a [gmap string json] (the order in which [json.dumps] prints the keys
      is not tracked);
    - the bytes written by [json.dumps(v) + "\n"] and by
      [print(json.dumps(v))] are represented by the value [v] itself, and
      [json.dumps] of a value that the decoder returned is taken to
      succeed;
    - everything the script asks of its environment (standard input, the
      process table, the terminal, the socket) is answered by a [world];
    - running a function yields the list of calls it made on the socket and
      on standard output, in order, and either a value or the exception
      that ended it ([sys.exit] is the exception [SystemExit]). *)

From Stdlib Require Import ZArith String Ascii.
From Stdlib Require Import Floats.PrimFloat.
From stdpp Require Import gmap strings list fin_maps.

#[local] Set Warnings "-register-all,-clear-no-such-hyp".
#[local] Open Scope string_scope.
#[local] Open Scope list_scope.

(** ** Python values *)

(** What [json.load] and [json.loads] return.  [JInt] is a Python [int],
    [JFloat] a Python [float] (IEEE binary64). *)
Inductive json : Type :=
| JNull
| JBool (b : bool)
| JInt (n : Z)
| JFloat (f : float)
| JStr (s : string)
| JArr (l : list json)
| JObj (m : gmap string json).

(** Truth value of a decoded value, as tested by [if v:] and [v or d]. *)
Definition truthy (v : json) : bool :=
  match v with
  | JNull => false
  | JBool b => b
  | JInt n => negb (n =? 0)%Z
  | JFloat f => negb (PrimFloat.eqb f 0%float)
  | JStr s => negb (String.eqb s "")
  | JArr l => match l with [] => false | _ :: _ => true end
  | JObj m => negb (bool_decide (dom m = ∅))
  end.

(** [v == "literal"]: only a [str] with the same characters is equal to a
    string literal. *)
Definition py_eq (v : json) (lit : string) : bool :=
  match v with
  | JStr s => String.eqb s lit
  | _ => false
  end.

(** [a or b]. *)
Definition py_or (a b : json) : json := if truthy a then a else b.

(** A Python value that is [None] or a [str]. *)
Definition of_optional_str (o : option string) : json := from_option JStr JNull o.

(** ** Strings

    A [string] is read as a sequence of code points below 256. *)

(** [c.isspace()] on that range. *)
Definition isspace (c : ascii) : bool :=
  let n := N_of_ascii c in
  ((9 <=? n) && (n <=? 13) || (28 <=? n) && (n <=? 32)
   || (n =? 133) || (n =? 160))%N.

Fixpoint lstrip (s : string) : string :=
  match s with
  | EmptyString => EmptyString
  | String c rest => if isspace c then lstrip rest else s
  end.

Definition rstrip (s : string) : string := String.rev (lstrip (String.rev s)).

(** [s.strip()]. *)
Definition strip (s : string) : string := rstrip (lstrip s).

(** [s.startswith(p)]. *)
Definition startswith (s p : string) : bool := String.prefix p s.

(** ** Exceptions, effects and the monad of the script *)

(** The subclasses of [OSError] a Unix stream socket raises
    ([socket.error] is [OSError]; [socket.timeout] is [TimeoutError]). *)
Inductive oserror : Type :=
| ConnectionRefusedError
| FileNotFoundError
| PermissionError
| TimeoutError
| BrokenPipeError
| ConnectionResetError
| OtherOSError.

Inductive exn : Type :=
| SystemExit (code : Z)
| OSError (e : oserror)
| JSONDecodeError
| UnicodeDecodeError
| ValueError
| RecursionError
| AttributeError.

(** The two ways the JSON decoder fails on text that is JSON: the text
    nests arrays or objects deeper than the interpreter's recursion limit,
    or it holds an integer literal of more digits than [int] converts
    (4300 by default).  Neither exception is a [json.JSONDecodeError]. *)
Inductive loads_failure : Type :=
| NestingTooDeep
| IntegerTooLong.

Definition loads_exn (f : loads_failure) : exn :=
  match f with
  | NestingTooDeep => RecursionError
  | IntegerTooLong => ValueError
  end.

(** The socket object: [timeout] is [None] for a socket without a timeout
    (what [socket.socket] returns), [Some t] after [settimeout(t)]. *)
Record socket_obj : Type := { timeout : option Z }.

(** The calls the script makes on the outside world, as they appear in a
    run.  A blocking socket call carries the timeout of the socket at the
    time of the call. *)
Inductive effect : Type :=
| Socket
| Connect (path : string) (tmo : option Z)
| Sendall (payload : gmap string json) (tmo : option Z)
| Recv (bufsize : Z) (tmo : option Z)
| Close
| PrintLine (line : json).

Inductive result (A : Type) : Type :=
| Return (a : A)
| Raise (e : exn).
Arguments Return {A} a.
Arguments Raise {A} e.

Definition M (A : Type) : Type := list effect * result A.

#[export] Instance M_ret : MRet M := λ A a, ([], Return a).

#[export] Instance M_bind : MBind M := λ A B f m,
  match m with
  | (t, Return a) => let '(t', r) := f a in (t ++ t', r)
  | (t, Raise e) => (t, Raise e)
  end.

Definition tell (e : effect) : M unit := ([e], Return ()).

Definition raise {A : Type} (e : exn) : M A := ([], Raise e).

(** [try: body except ...: handler]; the handler decides which exceptions
    it catches and re-raises the others. *)
Definition try_except {A : Type} (body : M A) (handler : exn → M A) : M A :=
  match body with
  | (t, Return a) => (t, Return a)
  | (t, Raise e) => let '(t', r) := handler e in (t ++ t', r)
  end.

(** [sys.exit(code)]. *)
Definition sys_exit {A : Type} (code : Z) : M A := raise (SystemExit code).

(** ** The world *)

(** What [json.load(sys.stdin)] finds: text that is not JSON; bytes that
    do not decode to text; JSON text on which the decoder fails; or the
    JSON text of [v], which the call returns. *)
Inductive stdin_content : Type :=
| StdinInvalid
| StdinUndecodable
| StdinUnloadable (f : loads_failure)
| StdinJSON (v : json).

(** [subprocess.run(["ps", ...], timeout=2)]: it raises (no [ps], timeout,
    undecodable output) or returns with some standard output. *)
Inductive ps_result : Type :=
| PsRaises
| PsStdout (out : string).

(** The bytes [sock.recv(4096)] returns, by what the script can do with
    them: nothing was received; they are not UTF-8; they are text but not
    JSON; they are JSON text on which the decoder fails (a thousand [[]
    fit in one buffer); they are the JSON text of [v], which
    [json.loads] returns. *)
Inductive received : Type :=
| NoBytes
| NotUtf8
| NotJSON
| Unloadable (f : loads_failure)
| JSONText (v : json).

(** How the monitor's socket answers each call of this run ([None]: the
    call succeeds). *)
Record channel : Type := {
  socket_outcome : option oserror;
  connect_outcome : option oserror;
  sendall_outcome : option oserror;
  recv_outcome : oserror + received
}.

Record world : Type := {
  stdin : stdin_content;
  getppid : Z;
  ps_tty : Z → ps_result;
  ttyname_stdin : option string;
  ttyname_stdout : option string;
  monitor : channel
}.

(** ** The script *)

Definition SOCKET_PATH : string := "/tmp/claude-web.sock".
Definition TIMEOUT_SECONDS : Z := 300.

(** [get_tty()]: the terminal of the parent process from [ps], else the
    terminal of this process's standard input, else of its standard
    output, else [None]. *)
Definition get_tty (w : world) : option string :=
  let ppid := getppid w in
  let from_ps :=
    match ps_tty w ppid with
    | PsStdout out =>
        let tty := strip out in
        if negb (String.eqb tty "") && negb (String.eqb tty "??")
           && negb (String.eqb tty "-")
        then Some (if negb (startswith tty "/dev/") then "/dev/" +:+ tty else tty)
        else None
    | PsRaises => None
    end in
  match from_ps with
  | Some tty => Some tty
  | None =>
      match ttyname_stdin w with
      | Some tty => Some tty
      | None =>
          match ttyname_stdout w with
          | Some tty => Some tty
          | None => None
          end
      end
  end.

(** The socket calls.  Each one is recorded, then succeeds or raises as the
    channel says. *)
Definition socket_socket (ch : channel) : M socket_obj :=
  tell Socket ;;
  match socket_outcome ch with
  | Some e => raise (OSError e)
  | None => mret {| timeout := None |}
  end.

Definition settimeout (sock : socket_obj) (secs : Z) : socket_obj :=
  {| timeout := Some secs |}.

Definition connect (ch : channel) (sock : socket_obj) (path : string) : M unit :=
  tell (Connect path (timeout sock)) ;;
  match connect_outcome ch with
  | Some e => raise (OSError e)
  | None => mret ()
  end.

Definition sendall (ch : channel) (sock : socket_obj)
    (payload : gmap string json) : M unit :=
  tell (Sendall payload (timeout sock)) ;;
  match sendall_outcome ch with
  | Some e => raise (OSError e)
  | None => mret ()
  end.

Definition recv (ch : channel) (sock : socket_obj) (bufsize : Z) : M received :=
  tell (Recv bufsize (timeout sock)) ;;
  match recv_outcome ch with
  | inl e => raise (OSError e)
  | inr bytes => mret bytes
  end.

Definition close (sock : socket_obj) : M unit := tell Close.

(** [json.loads(response.decode())], for bytes that were received. *)
Definition decode_and_loads (response : received) : M json :=
  match response with
  | NotUtf8 => raise UnicodeDecodeError
  | NoBytes | NotJSON => raise JSONDecodeError
  | Unloadable f => raise (loads_exn f)
  | JSONText v => mret v
  end.

(** [if response:] on the bytes received. *)
Definition nonempty (response : received) : bool :=
  match response with
  | NoBytes => false
  | _ => true
  end.

(** [except (socket.error, OSError, json.JSONDecodeError)]. *)
Definition send_event_catches (e : exn) : bool :=
  match e with
  | OSError _ | JSONDecodeError => true
  | _ => false
  end.

(** [send_event(event_data)]; Python's [None] is [JNull]. *)
Definition send_event (ch : channel) (event_data : gmap string json) : M json :=
  try_except
    (sock ← socket_socket ch;
     let sock := settimeout sock TIMEOUT_SECONDS in
     connect ch sock SOCKET_PATH ;;
     sendall ch sock event_data ;;
     if py_eq (default JNull (event_data !! "event_type")) "waiting_for_approval"
     then
       response ← recv ch sock 4096;
       close sock ;;
       if nonempty response
       then decode_and_loads response
       else mret JNull
     else
       close sock ;;
       mret JNull)
    (λ e, if send_event_catches e then mret JNull else raise e).

(** [json.load(sys.stdin)]. *)
Definition json_load (w : world) : M json :=
  match stdin w with
  | StdinInvalid => raise JSONDecodeError
  | StdinUndecodable => raise UnicodeDecodeError
  | StdinUnloadable f => raise (loads_exn f)
  | StdinJSON v => mret v
  end.

(** [d.get(key, default)]: a method of [dict] only. *)
Definition py_get (d : json) (key : string) (dflt : json) : M json :=
  match d with
  | JObj m => mret (default dflt (m !! key))
  | _ => raise AttributeError
  end.

(** The two directives printed for the calling tool. *)
Definition allow_directive : json :=
  JObj {[ "hookSpecificOutput" :=
    JObj (<["decision" := JObj {[ "behavior" := JStr "allow" ]}]>
           {[ "hookEventName" := JStr "PermissionRequest" ]}) ]}.

Definition deny_directive (message : json) : json :=
  JObj {[ "hookSpecificOutput" :=
    JObj (<["decision" :=
              JObj (<["message" := message]> {[ "behavior" := JStr "deny" ]})]>
           {[ "hookEventName" := JStr "PermissionRequest" ]}) ]}.

Definition DEFAULT_DENY_MESSAGE : string := "Denied by user via Claude Web Monitor".

(** Lines 128 to 158 of [main]: what the [PermissionRequest] branch does
    with the value [send_event] returned.  Every path ends in [sys.exit]. *)
Definition permission_decision {A : Type} (response : json) : M A :=
  (if truthy response then
     decision ← py_get response "decision" (JStr "ask");
     reason ← py_get response "reason" (JStr "");
     if py_eq decision "allow" then
       tell (PrintLine allow_directive) ;;
       sys_exit 0
     else if py_eq decision "deny" then
       tell (PrintLine (deny_directive (py_or reason (JStr DEFAULT_DENY_MESSAGE)))) ;;
       sys_exit 0
     else mret ()
   else mret ()) ;;
  sys_exit 0.

Section Hook.

(** [str(v)] for a decoded value that is not a [str] (["None"], ["True"],
    ["12"], ["[1, 2]"], ...), as an f-string prints it.  The script only
    needs it for a [hook_event_name] that is not a string. *)
Variable str_of_value : json → string.

(** [f"{v}"]. *)
Definition format_value (v : json) : string :=
  match v with
  | JStr s => s
  | _ => str_of_value v
  end.

(** [main()].  [event_data] is mutated in place by the script; here each
    assignment [event_data[k] = v] is an insertion into the map bound by
    the same name. *)
Definition main (w : world) : M unit :=
  data ← try_except (json_load w)
           (λ e, match e with JSONDecodeError => sys_exit 1 | _ => raise e end);
  session_id ← py_get data "session_id" (JStr "unknown");
  event ← py_get data "hook_event_name" (JStr "");
  cwd ← py_get data "cwd" (JStr "");
  tool_input ← py_get data "tool_input" (JObj ∅);
  let claude_pid := getppid w in
  let tty := get_tty w in
  let event_data : gmap string json :=
    <["tty" := of_optional_str tty]>
      (<["pid" := JInt claude_pid]>
         (<["cwd" := cwd]>
            (<["session_id" := session_id]> ∅))) in
  event_data ←
    (if py_eq event "UserPromptSubmit" then
       mret (<["event_type" := JStr "processing"]> event_data)
     else if py_eq event "PreToolUse" then
       let event_data := <["event_type" := JStr "running_tool"]> event_data in
       tool_name ← py_get data "tool_name" JNull;
       let event_data := <["tool_name" := tool_name]> event_data in
       let event_data := <["tool_input" := tool_input]> event_data in
       tool_use_id ← py_get data "tool_use_id" JNull;
       mret (if truthy tool_use_id
             then <["tool_use_id" := tool_use_id]> event_data
             else event_data)
     else if py_eq event "PostToolUse" then
       let event_data := <["event_type" := JStr "processing"]> event_data in
       tool_name ← py_get data "tool_name" JNull;
       let event_data := <["tool_name" := tool_name]> event_data in
       let event_data := <["tool_input" := tool_input]> event_data in
       tool_use_id ← py_get data "tool_use_id" JNull;
       mret (if truthy tool_use_id
             then <["tool_use_id" := tool_use_id]> event_data
             else event_data)
     else if py_eq event "PermissionRequest" then
       let event_data := <["event_type" := JStr "waiting_for_approval"]> event_data in
       tool_name ← py_get data "tool_name" JNull;
       let event_data := <["tool_name" := tool_name]> event_data in
       let event_data := <["tool_input" := tool_input]> event_data in
       response ← send_event (monitor w) event_data;
       permission_decision response
     else if py_eq event "Notification" then
       notification_type ← py_get data "notification_type" JNull;
       event_data ←
         (if py_eq notification_type "permission_prompt" then sys_exit 0
          else if py_eq notification_type "idle_prompt" then
            mret (<["event_type" := JStr "waiting_for_input"]> event_data)
          else
            mret (<["event_type" := JStr "notification"]> event_data));
       let event_data := <["title" := notification_type]> event_data in
       message ← py_get data "message" JNull;
       mret (<["message" := message]> event_data)
     else if py_eq event "Stop" then
       mret (<["event_type" := JStr "waiting_for_input"]> event_data)
     else if py_eq event "SubagentStop" then
       mret (<["event_type" := JStr "waiting_for_input"]> event_data)
     else if py_eq event "SessionStart" then
       mret (<["event_type" := JStr "session_start"]> event_data)
     else if py_eq event "SessionEnd" then
       mret (<["event_type" := JStr "session_end"]> event_data)
     else if py_eq event "PreCompact" then
       mret (<["event_type" := JStr "compacting"]> event_data)
     else
       let event_data := <["event_type" := JStr "notification"]> event_data in
       mret (<["message" := JStr ("Unknown event: " +:+ format_value event)]>
               event_data));
  send_event (monitor w) event_data ;;
  mret ().

End Hook.

(** ** Observing a run *)

Definition trace {A : Type} (m : M A) : list effect := m.1.

(** The lines written to standard output. *)
Definition stdout {A : Type} (m : M A) : list json :=
  omap (λ e, match e with PrintLine line => Some line | _ => None end) (trace m).

(** The records written to the socket. *)
Definition sent {A : Type} (m : M A) : list (gmap string json) :=
  omap (λ e, match e with Sendall r _ => Some r | _ => None end) (trace m).

(** How the process ends when [main()] is the whole program: a normal
    return, [sys.exit(code)], or an exception nobody catches. *)
Inductive status : Type :=
| Exited (code : Z)
| Uncaught (e : exn).

Definition exit_status (m : M unit) : status :=
  match m.2 with
  | Return _ => Exited 0
  | Raise (SystemExit code) => Exited code
  | Raise e => Uncaught e
  end.

(** The exit code the caller sees: the interpreter prints a traceback for
    an uncaught exception and exits with code 1. *)
Definition exit_code (m : M unit) : Z :=
  match exit_status m with
  | Exited code => code
  | Uncaught _ => 1
  end.

(** ** Vocabulary of the statements *)

Definition is_object (v : json) : bool :=
  match v with
  | JObj _ => true
  | _ => false
  end.

(** The exception that ends [main] before it builds a record (lines 75 to
    83), or [None] when standard input holds a JSON object. *)
Definition stdin_failure (input : stdin_content) : option exn :=
  match input with
  | StdinInvalid => Some (SystemExit 1)
  | StdinUndecodable => Some UnicodeDecodeError
  | StdinUnloadable f => Some (loads_exn f)
  | StdinJSON (JObj _) => None
  | StdinJSON _ => Some AttributeError
  end.

(** The fields every outbound record starts from (lines 90 to 95), for the
    inbound record [data]. *)
Definition base_record (w : world) (data : gmap string json) : gmap string json :=
  <["tty" := of_optional_str (get_tty w)]>
    (<["pid" := JInt (getppid w)]>
       (<["cwd" := default (JStr "") (data !! "cwd")]>
          (<["session_id" := default (JStr "unknown") (data !! "session_id")]> ∅))).

Definition base_fields : gset string :=
  {[ "session_id"; "cwd"; "pid"; "tty"; "event_type" ]}.

(** *** The dispatch table of section 4.1, in the spec's words

    A row is either the suppressed notification or a canonical event type
    with the extra fields copied into the record. *)
Inductive row : Type :=
| Suppressed
| Emit (event_type : string) (extra : gmap string json).

(** "tool_name, tool_input", and "tool_use_id (if present)" where the row
    has it: [keep] says which present values of [tool_use_id] are copied. *)
Definition tool_fields (keep : json → bool) (data : gmap string json)
    : gmap string json :=
  let copied :=
    <["tool_input" := default (JObj ∅) (data !! "tool_input")]>
      (<["tool_name" := default JNull (data !! "tool_name")]> ∅) in
  match data !! "tool_use_id" with
  | Some v => if keep v then <["tool_use_id" := v]> copied else copied
  | None => copied
  end.

(** "title, message": the title is the notification type. *)
Definition notice_fields (data : gmap string json) : gmap string json :=
  <["message" := default JNull (data !! "message")]>
    (<["title" := default JNull (data !! "notification_type")]> ∅).

Definition always (v : json) : bool := true.
Definition never (v : json) : bool := false.

Section Table.

Variable str_of_value : json → string.

(** The table, row by row, for the inbound record [data]; an absent
    [hook_event_name] counts as the empty name. *)
Definition table_4_1 (keep : json → bool) (data : gmap string json) : row :=
  let name := default (JStr "") (data !! "hook_event_name") in
  let kind := default JNull (data !! "notification_type") in
  if py_eq name "UserPromptSubmit" then Emit "processing" ∅
  else if py_eq name "PreToolUse" then Emit "running_tool" (tool_fields keep data)
  else if py_eq name "PostToolUse" then Emit "processing" (tool_fields keep data)
  else if py_eq name "PermissionRequest" then
    Emit "waiting_for_approval" (tool_fields never data)
  else if py_eq name "Notification" then
    if py_eq kind "permission_prompt" then Suppressed
    else if py_eq kind "idle_prompt" then Emit "waiting_for_input" (notice_fields data)
    else Emit "notification" (notice_fields data)
  else if py_eq name "Stop" then Emit "waiting_for_input" ∅
  else if py_eq name "SubagentStop" then Emit "waiting_for_input" ∅
  else if py_eq name "SessionStart" then Emit "session_start" ∅
  else if py_eq name "SessionEnd" then Emit "session_end" ∅
  else if py_eq name "PreCompact" then Emit "compacting" ∅
  else
    Emit "notification"
      (<["message" :=
           JStr ("Unknown event: " +:+ format_value str_of_value name)]> ∅).

(** The record a row stands for. *)
Definition record_of (w : world) (data : gmap string json)
    (event_type : string) (extra : gmap string json) : gmap string json :=
  extra ∪ <["event_type" := JStr event_type]> (base_record w data).

(** Step 4: the approval exchange, and the send that awaits no reply. *)
Definition approval_exchange (ch : channel) (r : gmap string json) : M unit :=
  send_event ch r ≫= permission_decision.

Definition fire_and_forget (ch : channel) (r : gmap string json) : M unit :=
  send_event ch r ;; mret ().

(** Step 4 for a row: nothing for the suppressed one; the approval exchange
    for [waiting_for_approval]; a fire-and-forget send for the others. *)
Definition relay (w : world) (data : gmap string json) (r : row) : M unit :=
  match r with
  | Suppressed => sys_exit 0
  | Emit event_type extra =>
      if String.eqb event_type "waiting_for_approval"
      then approval_exchange (monitor w) (record_of w data event_type extra)
      else fire_and_forget (monitor w) (record_of w data event_type extra)
  end.

End Table.

(** *** Channels and worlds of the examples *)

(** A monitor that accepts the connection and the record, and whose answer
    to a read is [r]. *)
Definition listening (r : oserror + received) : channel :=
  {| socket_outcome := None; connect_outcome := None;
     sendall_outcome := None; recv_outcome := r |}.

(** Nobody listens on the socket path. *)
Definition unreachable : channel :=
  {| socket_outcome := None; connect_outcome := Some ConnectionRefusedError;
     sendall_outcome := None; recv_outcome := inl ConnectionResetError |}.

(** A run whose parent has no terminal ([ps] prints the placeholder), with
    [input] on standard input. *)
Definition world_of (input : stdin_content) (ch : channel) : world :=
  {| stdin := input; getppid := 4242; ps_tty := λ _, PsStdout "??";
     ttyname_stdin := None; ttyname_stdout := None; monitor := ch |}.

(** A run in which [ps] answers [ps] for the parent 4242 only, and
    [os.ttyname] answers [tin] and [tout]. *)
Definition terminal_world (ps : ps_result) (tin tout : option string) : world :=
  {| stdin := StdinInvalid; getppid := 4242;
     ps_tty := λ pid, if (pid =? 4242)%Z then ps else PsRaises;
     ttyname_stdin := tin; ttyname_stdout := tout; monitor := unreachable |}.

Definition newline : string := String (ascii_of_nat 10) "".

(** [str] on the values the examples need. *)
Definition str_simple (v : json) : string :=
  match v with
  | JNull => "None"
  | JBool true => "True"
  | JBool false => "False"
  | _ => ""
  end.

(** Inbound records of the examples. *)
Definition pre_tool_use_empty_id : gmap string json :=
  <["tool_use_id" := JStr ""]> (<["hook_event_name" := JStr "PreToolUse"]> ∅).

Definition permission_request_bash : gmap string json :=
  <["tool_input" := JObj (<["command" := JStr "ls"]> ∅)]>
    (<["tool_name" := JStr "Bash"]>
       (<["hook_event_name" := JStr "PermissionRequest"]> ∅)).

Definition stop_event : gmap string json :=
  <["session_id" := JStr "s1"]> (<["hook_event_name" := JStr "Stop"]> ∅).

(** Replies of the monitor. *)
Definition deny_because_x : gmap string json :=
  <["reason" := JStr "x"]> (<["decision" := JStr "deny"]> ∅).

(** A permission request answered with bytes that are not UTF-8. *)
Definition garbled_reply_world : world :=
  world_of (StdinJSON (JObj permission_request_bash)) (listening (inr NotUtf8)).

(** A [Stop] run with a listening monitor and no terminal to be found. *)
Definition stop_world : world :=
  world_of (StdinJSON (JObj stop_event)) (listening (inr NoBytes)).

(** A [Stop] run on Linux whose parent has no terminal: there [ps] prints
    [?], and a newline. *)
Definition stop_world_linux : world :=
  {| stdin := StdinJSON (JObj stop_event); getppid := 4242;
     ps_tty := λ _, PsStdout ("?" +:+ newline);
     ttyname_stdin := None; ttyname_stdout := None;
     monitor := listening (inr NoBytes) |}.

(** A permission request that finds the monitor listening. *)
Definition permission_world : world :=
  world_of (StdinJSON (JObj permission_request_bash)) (listening (inr NoBytes)).

(** *** What the statements say about a run *)

(** The socket calls of [send_event] up to and including the connect, the
    write of [r], and the read. *)
Definition calls_until_connect : list effect :=
  [Socket; Connect SOCKET_PATH (Some TIMEOUT_SECONDS)].

Definition calls_until_sendall (r : gmap string json) : list effect :=
  calls_until_connect ++ [Sendall r (Some TIMEOUT_SECONDS)].

Definition calls_until_recv (r : gmap string json) : list effect :=
  calls_until_sendall r ++ [Recv 4096 (Some TIMEOUT_SECONDS)].

(** [send_event] reads a reply for this record. *)
Definition wants_reply (r : gmap string json) : bool :=
  py_eq (default JNull (r !! "event_type")) "waiting_for_approval".

(** The timeout a blocking socket call ran under. *)
Definition timeout_of (e : effect) : option (option Z) :=
  match e with
  | Connect _ t | Sendall _ t | Recv _ t => Some t
  | _ => None
  end.

Definition is_recv (e : effect) : bool :=
  match e with
  | Recv _ _ => true
  | _ => false
  end.

Definition is_socket (e : effect) : bool :=
  match e with
  | Socket => true
  | _ => false
  end.

(** Number of sockets opened, which is the number of calls of
    [send_event]: each call opens one first. *)
Definition sockets_opened {A : Type} (m : M A) : nat :=
  length (filter (λ e, is_socket e) (trace m)).

(** The monitor takes the connection and the record and answers the read
    with the JSON object [reply]. *)
Definition answers (ch : channel) (reply : gmap string json) : Prop :=
  socket_outcome ch = None ∧ connect_outcome ch = None
  ∧ sendall_outcome ch = None ∧ recv_outcome ch = inr (JSONText (JObj reply)).

(** A socket call raises an [OSError] (the monitor is not there, refuses,
    resets, or the timeout expires). *)
Definition channel_error (ch : channel) : Prop :=
  is_Some (socket_outcome ch) ∨ is_Some (connect_outcome ch)
  ∨ is_Some (sendall_outcome ch) ∨ ∃ e, recv_outcome ch = inl e.

(** The read returns without a byte: the monitor closed the connection
    without answering. *)
Definition no_response (ch : channel) : Prop := recv_outcome ch = inr NoBytes.

(** The read returns bytes that are not the JSON text of any value: bytes
    that are not UTF-8, or text that is not JSON. *)
Definition malformed_response (ch : channel) : Prop :=
  recv_outcome ch = inr NotUtf8 ∨ recv_outcome ch = inr NotJSON.

(** The connection is established: the record gets written. *)
Definition connects (ch : channel) : bool :=
  match socket_outcome ch, connect_outcome ch with
  | None, None => true
  | _, _ => false
  end.

(** The hook names of the table. *)
Definition known_hooks : list string :=
  [ "UserPromptSubmit"; "PreToolUse"; "PostToolUse"; "PermissionRequest";
    "Notification"; "Stop"; "SubagentStop"; "SessionStart"; "SessionEnd";
    "PreCompact" ].

Definition is_known (name : json) : bool := existsb (py_eq name) known_hooks.

(** The inbound record is the notification the script drops. *)
Definition suppressed (data : gmap string json) : bool :=
  py_eq (default (JStr "") (data !! "hook_event_name")) "Notification"
  && py_eq (default JNull (data !! "notification_type")) "permission_prompt".

(** The "extra fields copied" column of section 4.1, as a set of names. *)
Definition column (data : gmap string json) : gset string :=
  let name := default (JStr "") (data !! "hook_event_name") in
  if py_eq name "PreToolUse" || py_eq name "PostToolUse"
  then {[ "tool_name"; "tool_input"; "tool_use_id" ]}
  else if py_eq name "PermissionRequest" then {[ "tool_name"; "tool_input" ]}
  else if py_eq name "Notification" then {[ "title"; "message" ]}
  else if py_eq name "UserPromptSubmit" || py_eq name "Stop"
          || py_eq name "SubagentStop" || py_eq name "SessionStart"
          || py_eq name "SessionEnd" || py_eq name "PreCompact"
  then ∅
  else {[ "message" ]}.

(** The value the column gives a named field: the inbound value of the
    field ([None], or the empty dict for [tool_input], when the inbound
    record lacks it), the notification type for [title], and the
    synthesized text for the [message] of an unknown hook. *)
Definition column_value (str_of_value : json → string)
    (data : gmap string json) (k : string) : json :=
  let name := default (JStr "") (data !! "hook_event_name") in
  if String.eqb k "title" then default JNull (data !! "notification_type")
  else if String.eqb k "tool_input" then default (JObj ∅) (data !! "tool_input")
  else if String.eqb k "message" && negb (py_eq name "Notification")
  then JStr ("Unknown event: " +:+ format_value str_of_value name)
  else default JNull (data !! k).

(** The inbound record is a [Notification] of type [permission_prompt]. *)
Definition suppressed_input (w : world) : Prop :=
  ∃ data,
    stdin w = StdinJSON (JObj data)
    ∧ data !! "hook_event_name" = Some (JStr "Notification")
    ∧ data !! "notification_type" = Some (JStr "permission_prompt").

(** *** Vocabulary of the further properties *)

(** Every character of [s] is white space. *)
Fixpoint all_space (s : string) : bool :=
  match s with
  | EmptyString => true
  | String c rest => isspace c && all_space rest
  end.

(** [get_tty] takes the stripped output [t] of [ps] for a terminal name. *)
Definition usable (t : string) : Prop := t ≠ "" ∧ t ≠ "??" ∧ t ≠ "-".

(** The event types [main] assigns (lines 100 to 191). *)
Definition event_types : list string :=
  [ "processing"; "running_tool"; "waiting_for_approval"; "waiting_for_input";
    "notification"; "session_start"; "session_end"; "compacting" ].

(** The inbound fields [main] reads (lines 80 to 170). *)
Definition fields_read : list string :=
  [ "session_id"; "hook_event_name"; "cwd"; "tool_input"; "tool_name";
    "tool_use_id"; "notification_type"; "message" ].

(** The monitor takes the connection and the record. *)
Definition accepts (ch : channel) : Prop :=
  socket_outcome ch = None ∧ connect_outcome ch = None
  ∧ sendall_outcome ch = None.

(** A permission request whose monitor answers with the JSON text of [v]. *)
Definition answered_with (v : json) : world :=
  world_of (StdinJSON (JObj permission_request_bash))
           (listening (inr (JSONText v))).

(** A permission request answered with a thousand opening brackets. *)
Definition deeply_nested_reply_world : world :=
  world_of (StdinJSON (JObj permission_request_bash))
           (listening (inr (Unloadable NestingTooDeep))).

Definition capital_allow : gmap string json := <["decision" := JStr "Allow"]> ∅.

Definition deny_empty_reason : gmap string json :=
  <["reason" := JStr ""]> (<["decision" := JStr "deny"]> ∅).

(** The [Stop] run of [stop_world], started from a terminal by another
    parent. *)
Definition stop_world_on_terminal : world :=
  {| stdin := StdinJSON (JObj stop_event); getppid := 7;
     ps_tty := λ _, PsStdout "pts/1";
     ttyname_stdin := Some "/dev/pts/1"; ttyname_stdout := Some "/dev/pts/1";
     monitor := listening (inr NoBytes) |}.

(** The [Stop] record with a field [main] does not read. *)
Definition stop_event_with_transcript : gmap string json :=
  <["transcript_path" := JStr "/tmp/t.jsonl"]> stop_event.

(** The calls of a complete [send_event], in order. *)
Definition all_calls (r : gmap string json) : list effect :=
  calls_until_sendall r
  ++ (if wants_reply r then [Recv 4096 (Some TIMEOUT_SECONDS)] else [])
  ++ [Close].

(** * Properties *)

(** ** The model on small inputs *)

Example truthy_values :
  truthy (JStr "") = false ∧ truthy (JStr "0") = true
  ∧ truthy (JInt 0) = false ∧ truthy (JFloat (-0)%float) = false
  ∧ truthy (JFloat nan) = true ∧ truthy JNull = false
  ∧ truthy (JArr []) = false ∧ truthy (JArr [JNull]) = true
  ∧ truthy (JObj ∅) = false ∧ truthy (JObj {[ "decision" := JNull ]}) = true.
Proof. by vm_compute. Qed.

Example strip_ps_output : strip ("  pts/1 " +:+ newline) = "pts/1".
Proof. reflexivity. Qed.

Example get_tty_adds_dev :
  get_tty (terminal_world (PsStdout ("pts/1" +:+ newline)) None None)
  = Some "/dev/pts/1".
Proof. reflexivity. Qed.

Example get_tty_keeps_dev :
  get_tty (terminal_world (PsStdout "/dev/ttys001") None None)
  = Some "/dev/ttys001".
Proof. reflexivity. Qed.

Example get_tty_falls_back :
  get_tty (terminal_world (PsStdout ("??" +:+ newline)) None (Some "/dev/pts/7"))
  = Some "/dev/pts/7"
  ∧ get_tty (terminal_world PsRaises (Some "/dev/pts/3") (Some "/dev/pts/7"))
    = Some "/dev/pts/3"
  ∧ get_tty (terminal_world (PsStdout "-") None None) = None.
Proof. by vm_compute. Qed.

(** ** The monad *)

Lemma mret_bind {A B : Type} (a : A) (f : A → M B) : (mret a ≫= f) = f a.
Proof. unfold mbind, M_bind, mret, M_ret. destruct (f a); reflexivity. Qed.

Lemma raise_bind {A B : Type} (e : exn) (f : A → M B) : (raise e ≫= f) = raise e.
Proof. reflexivity. Qed.

Lemma bind_assoc {A B C : Type} (m : M A) (f : A → M B) (g : B → M C) :
  ((m ≫= f) ≫= g) = (m ≫= λ a, f a ≫= g).
Proof.
  unfold mbind, M_bind. destruct m as [t [a|e]]; [|reflexivity].
  destruct (f a) as [t1 [b|e]]; [|reflexivity].
  destruct (g b) as [t2 r]. by rewrite (assoc_L (++)).
Qed.

Lemma bind_ext {A B : Type} (m : M A) (f g : A → M B) :
  (∀ a, f a = g a) → (m ≫= f) = (m ≫= g).
Proof.
  intros Hfg. unfold mbind, M_bind. destruct m as [t [a|e]]; [|reflexivity].
  by rewrite Hfg.
Qed.

Lemma py_get_object (m : gmap string json) (key : string) (dflt : json) :
  py_get (JObj m) key dflt = mret (default dflt (m !! key)).
Proof. reflexivity. Qed.

(** ** Records *)

Lemma record_of_no_extra w data ev :
  record_of w data ev ∅ = <["event_type" := JStr ev]> (base_record w data).
Proof. unfold record_of. by rewrite (left_id_L ∅ (∪)). Qed.

Lemma record_of_insert w data ev k v extra :
  record_of w data ev (<[k := v]> extra) = <[k := v]> (record_of w data ev extra).
Proof. unfold record_of. by rewrite insert_union_l. Qed.

Ltac eval_eqb :=
  repeat match goal with
  | |- context [String.eqb ?a ?b] =>
      let v := eval vm_compute in (String.eqb a b) in
      match v with
      | true => change (String.eqb a b) with true
      | false => change (String.eqb a b) with false
      end
  end.

Lemma permission_decision_bind {A B : Type} (response : json) (f : A → M B) :
  (permission_decision response ≫= f) = permission_decision response.
Proof. unfold permission_decision. by rewrite bind_assoc. Qed.

(** ** [send_event], call by call *)

Lemma send_event_no_reply (ch : channel) (r : gmap string json) :
  wants_reply r = false →
  send_event ch r =
    (match socket_outcome ch, connect_outcome ch, sendall_outcome ch with
     | Some _, _, _ => [Socket]
     | None, Some _, _ => calls_until_connect
     | None, None, Some _ => calls_until_sendall r
     | None, None, None => calls_until_sendall r ++ [Close]
     end, Return JNull).
Proof.
  unfold wants_reply. intros Hev. unfold send_event. rewrite Hev.
  destruct ch as [[?|] [?|] [?|] ?]; reflexivity.
Qed.

Lemma send_event_reply (ch : channel) (r : gmap string json) :
  wants_reply r = true →
  send_event ch r =
    match socket_outcome ch, connect_outcome ch, sendall_outcome ch with
    | Some _, _, _ => ([Socket], Return JNull)
    | None, Some _, _ => (calls_until_connect, Return JNull)
    | None, None, Some _ => (calls_until_sendall r, Return JNull)
    | None, None, None =>
        match recv_outcome ch with
        | inl _ => (calls_until_recv r, Return JNull)
        | inr NoBytes | inr NotJSON => (calls_until_recv r ++ [Close], Return JNull)
        | inr NotUtf8 => (calls_until_recv r ++ [Close], Raise UnicodeDecodeError)
        | inr (Unloadable f) => (calls_until_recv r ++ [Close], Raise (loads_exn f))
        | inr (JSONText v) => (calls_until_recv r ++ [Close], Return v)
        end
    end.
Proof.
  unfold wants_reply. intros Hev. unfold send_event. rewrite Hev.
  destruct ch as [[?|] [?|] [?|] [?|[| | |[|]|?]]]; reflexivity.
Qed.

Section Dispatch.

Variable str_of_value : json → string.

Lemma main_dispatch (w : world) (data : gmap string json) :
  stdin w = StdinJSON (JObj data) →
  main str_of_value w = relay w data (table_4_1 str_of_value truthy data).
Proof.
  intros Hin. unfold main, json_load, table_4_1. rewrite Hin.
  unfold try_except at 1. cbv zeta.
  change (mret (JObj data)) with (([], Return (JObj data)) : M json).
  cbv iota.
  change ((([], Return (JObj data)) : M json)) with (mret (M:=M) (JObj data)).
  rewrite mret_bind. rewrite !py_get_object, !mret_bind.
  fold (base_record w data).
  set (name := default (JStr "") (data !! "hook_event_name")).
  set (kind := default JNull (data !! "notification_type")).
  repeat (match goal with
          | |- context [if py_eq name ?s then _ else _] => destruct (py_eq name s)
          end;
          [ unfold relay, approval_exchange, fire_and_forget; eval_eqb; cbv iota;
            rewrite ?mret_bind, ?record_of_no_extra | ]).
  - reflexivity.
  - unfold tool_fields.
    destruct (data !! "tool_use_id") as [v|];
      cbn [default from_option id truthy];
      [destruct (truthy v)|];
      rewrite ?record_of_insert, ?record_of_no_extra; reflexivity.
  - unfold tool_fields.
    destruct (data !! "tool_use_id") as [v|];
      cbn [default from_option id truthy];
      [destruct (truthy v)|];
      rewrite ?record_of_insert, ?record_of_no_extra; reflexivity.
  - rewrite bind_assoc. unfold tool_fields, never.
    assert (Hrec : ∀ o : option json,
      record_of w data "waiting_for_approval"
        match o with
        | Some _ =>
            <["tool_input" := default (JObj ∅) (data !! "tool_input")]>
              (<["tool_name" := default JNull (data !! "tool_name")]> ∅)
        | None =>
            <["tool_input" := default (JObj ∅) (data !! "tool_input")]>
              (<["tool_name" := default JNull (data !! "tool_name")]> ∅)
        end
      = <["tool_input" := default (JObj ∅) (data !! "tool_input")]>
          (<["tool_name" := default JNull (data !! "tool_name")]>
             (<["event_type" := JStr "waiting_for_approval"]> (base_record w data)))).
    { intros [?|]; by rewrite !record_of_insert, record_of_no_extra. }
    rewrite Hrec. apply bind_ext. intros response.
    apply permission_decision_bind.
  - destruct (py_eq kind "permission_prompt"); [reflexivity|].
    destruct (py_eq kind "idle_prompt"); unfold relay, approval_exchange, fire_and_forget; eval_eqb; cbv iota;
      unfold notice_fields; fold kind;
      by rewrite !mret_bind, !record_of_insert, record_of_no_extra.
  - reflexivity.
  - reflexivity.
  - reflexivity.
  - reflexivity.
  - reflexivity.
  - rewrite mret_bind. unfold relay, approval_exchange, fire_and_forget. eval_eqb. cbv iota.
    by rewrite !record_of_insert, record_of_no_extra.
Qed.

(** Without a JSON object on standard input the run ends at once. *)
Lemma main_stdin_failure (w : world) (e : exn) :
  stdin_failure (stdin w) = Some e →
  main str_of_value w = ([], Raise e).
Proof.
  unfold stdin_failure, main, json_load.
  destruct (stdin w) as [| |[|]|v]; [| | | |destruct v];
    intros [= <-]; reflexivity.
Qed.

Lemma stdin_failure_none (w : world) :
  stdin_failure (stdin w) = None → ∃ data, stdin w = StdinJSON (JObj data).
Proof.
  unfold stdin_failure. destruct (stdin w) as [| |?|[]]; try discriminate.
  eauto.
Qed.
End Dispatch.

(** ** The decision block *)

Lemma permission_decision_cases {A : Type} (response : json) :
  permission_decision (A := A) response =
    if truthy response then
      match response with
      | JObj reply =>
          if py_eq (default (JStr "ask") (reply !! "decision")) "allow" then
            ([PrintLine allow_directive], Raise (SystemExit 0))
          else if py_eq (default (JStr "ask") (reply !! "decision")) "deny" then
            ([PrintLine (deny_directive
                       (py_or (default (JStr "") (reply !! "reason"))
                              (JStr DEFAULT_DENY_MESSAGE)))],
             Raise (SystemExit 0))
          else ([], Raise (SystemExit 0))
      | _ => ([], Raise AttributeError)
      end
    else ([], Raise (SystemExit 0)).
Proof.
  unfold permission_decision.
  destruct (truthy response) eqn:Htruthy; [|reflexivity].
  destruct response; try reflexivity.
  rewrite !py_get_object, !mret_bind.
  destruct (py_eq _ "allow"); [reflexivity|].
  destruct (py_eq _ "deny"); reflexivity.
Qed.

(** ** Observations of a bind *)

Lemma trace_bind {A B : Type} (m : M A) (f : A → M B) :
  trace (m ≫= f) =
    trace m ++ match m.2 with Return a => trace (f a) | Raise _ => [] end.
Proof.
  unfold trace, mbind, M_bind. destruct m as [t [a|e]]; cbn.
  - by destruct (f a).
  - by rewrite (right_id_L [] (++)).
Qed.

Lemma py_eq_true (v : json) (lit : string) : py_eq v lit = true ↔ v = JStr lit.
Proof.
  destruct v; cbn; try (split; [discriminate|intros [=]]).
  rewrite String.eqb_eq. split; [by intros ->|by intros [= ->]].
Qed.

Lemma wants_reply_true (r : gmap string json) :
  wants_reply r = true ↔ r !! "event_type" = Some (JStr "waiting_for_approval").
Proof.
  unfold wants_reply. rewrite py_eq_true.
  destruct (r !! "event_type") as [v|]; cbn; [|split; discriminate].
  split; [by intros ->|by intros [= ->]].
Qed.

(** ** The table *)

(** Case analysis on the hook name: in the case where the name is the
    literal [s], every other test on the name is evaluated. *)
Ltac name_case name :=
  match goal with
  | |- context [py_eq name ?s] =>
      let E := fresh "Hname" in
      destruct (py_eq name s) eqn:E;
      [ apply py_eq_true in E; rewrite ?E in *; clear E;
        cbn [py_eq]; eval_eqb; cbn [orb andb negb] | ]
  end.

Lemma tool_fields_dom keep data :
  dom (tool_fields keep data) ⊆ {[ "tool_name"; "tool_input"; "tool_use_id" ]}.
Proof.
  unfold tool_fields.
  destruct (data !! "tool_use_id") as [v|]; [destruct (keep v)|];
    rewrite !dom_insert_L; set_solver.
Qed.

Lemma tool_fields_never_dom data :
  dom (tool_fields never data) ⊆ {[ "tool_name"; "tool_input" ]}.
Proof.
  unfold tool_fields, never.
  destruct (data !! "tool_use_id"); rewrite !dom_insert_L; set_solver.
Qed.

Lemma notice_fields_dom data : dom (notice_fields data) ⊆ {[ "title"; "message" ]}.
Proof. unfold notice_fields. rewrite !dom_insert_L. set_solver. Qed.

Lemma column_disjoint data : column data ## base_fields.
Proof.
  unfold column, base_fields.
  generalize (default (JStr "") (data !! "hook_event_name")). intros name.
  repeat name_case name; set_solver.
Qed.

Section TableFacts.

Variable str_of_value : json → string.

Lemma table_suppressed keep data :
  table_4_1 str_of_value keep data = Suppressed ↔ suppressed data = true.
Proof.
  unfold table_4_1, suppressed.
  remember (default (JStr "") (data !! "hook_event_name")) as name eqn:Hn.
  clear Hn.
  repeat name_case name; try (split; discriminate).
  - destruct (py_eq _ "permission_prompt"); [done|].
    destruct (py_eq _ "idle_prompt"); split; discriminate.
Qed.

Lemma tool_fields_values keep data k v :
  py_eq (default (JStr "") (data !! "hook_event_name")) "Notification" = false →
  tool_fields keep data !! k = Some v → v = column_value str_of_value data k.
Proof.
  intros Hname. unfold tool_fields, column_value. rewrite Hname.
  assert (Hcopied : ∀ v,
    (<["tool_input" := default (JObj ∅) (data !! "tool_input")]>
       (<["tool_name" := default JNull (data !! "tool_name")]> ∅)
       : gmap string json) !! k = Some v →
    v = column_value str_of_value data k).
  { intros v'. unfold column_value. rewrite Hname.
    rewrite !lookup_insert, lookup_empty.
    repeat case_decide; subst; cbn; try discriminate; by intros [= <-]. }
  unfold column_value in Hcopied. rewrite Hname in Hcopied.
  destruct (data !! "tool_use_id") as [id|] eqn:Hid; [destruct (keep id)|];
    try apply Hcopied.
  rewrite lookup_insert. case_decide; [|apply Hcopied].
  subst k. cbn. rewrite Hid. by intros [= <-].
Qed.

Lemma notice_fields_values data k v :
  py_eq (default (JStr "") (data !! "hook_event_name")) "Notification" = true →
  notice_fields data !! k = Some v → v = column_value str_of_value data k.
Proof.
  intros Hname. unfold notice_fields, column_value. rewrite Hname.
  rewrite !lookup_insert, lookup_empty.
  repeat case_decide; subst; cbn; try discriminate; by intros [= <-].
Qed.

Lemma table_emit data ev extra :
  table_4_1 str_of_value truthy data = Emit ev extra →
  suppressed data = false
  ∧ String.eqb ev "waiting_for_approval"
    = py_eq (default (JStr "") (data !! "hook_event_name")) "PermissionRequest"
  ∧ dom extra ⊆ column data
  ∧ ∀ k v, extra !! k = Some v → v = column_value str_of_value data k.
Proof.
  unfold table_4_1, suppressed, column.
  pose proof (tool_fields_values truthy data) as Htool.
  pose proof (tool_fields_values never data) as Htool'.
  pose proof (notice_fields_values data) as Hnotice.
  pose proof (tool_fields_dom truthy data) as Hdom.
  pose proof (tool_fields_never_dom data) as Hdom'.
  pose proof (notice_fields_dom data) as Hdomn.
  revert Htool Htool' Hnotice.
  unfold column_value.
  remember (default (JStr "") (data !! "hook_event_name")) as name eqn:Hn.
  clear Hn.
  repeat name_case name; intros Htool Htool' Hnotice.
  all: try (destruct (py_eq _ "permission_prompt"); [discriminate|];
            destruct (py_eq _ "idle_prompt")).
  all: intros [= <- <-]; split_and!;
    [reflexivity | reflexivity | try set_solver | intros k v].
  all: try (by auto).
  all: try (by rewrite lookup_empty).
  rewrite lookup_insert, lookup_empty.
  case_decide; [subst k; by intros [= <-]|discriminate].
Qed.

End TableFacts.

(** ** The two shapes of a run *)

Lemma record_wants_reply w data ev extra :
  dom extra ## base_fields →
  wants_reply (record_of w data ev extra) = String.eqb ev "waiting_for_approval".
Proof.
  intros Hdisj. unfold wants_reply, record_of.
  assert (extra !! "event_type" = None) as Hnone.
  { apply not_elem_of_dom. intros Hin. apply (Hdisj "event_type" Hin).
    unfold base_fields. set_solver. }
  by rewrite lookup_union_r, lookup_insert_eq.
Qed.

Section Shapes.

Variable str_of_value : json → string.

(** A run on a JSON object is the suppressed exit, one approval exchange,
    or one send without a read. *)
Lemma main_cases (w : world) (data : gmap string json) :
  stdin w = StdinJSON (JObj data) →
  if suppressed data then main str_of_value w = ([], Raise (SystemExit 0))
  else ∃ ev extra,
    table_4_1 str_of_value truthy data = Emit ev extra
    ∧ wants_reply (record_of w data ev extra)
      = py_eq (default (JStr "") (data !! "hook_event_name")) "PermissionRequest"
    ∧ main str_of_value w =
        if py_eq (default (JStr "") (data !! "hook_event_name")) "PermissionRequest"
        then approval_exchange (monitor w) (record_of w data ev extra)
        else fire_and_forget (monitor w) (record_of w data ev extra).
Proof.
  intros Hin. rewrite (main_dispatch _ _ _ Hin).
  destruct (table_4_1 str_of_value truthy data) as [|ev extra] eqn:Hrow.
  - apply table_suppressed in Hrow. by rewrite Hrow.
  - destruct (table_emit _ _ _ _ Hrow) as (Hsup & Hev & Hdom & _).
    rewrite Hsup. exists ev, extra. split; [done|].
    rewrite record_wants_reply, <- Hev.
    + split; [done|]. unfold relay. by destruct (String.eqb ev _).
    + pose proof (column_disjoint data). set_solver.
Qed.

End Shapes.

Lemma forward_run (ch : channel) (r : gmap string json) :
  wants_reply r = false →
  fire_and_forget ch r = (trace (send_event ch r), Return ()).
Proof.
  intros Hr. unfold fire_and_forget. rewrite (send_event_no_reply _ _ Hr).
  destruct (socket_outcome ch), (connect_outcome ch), (sendall_outcome ch);
    reflexivity.
Qed.

Lemma forward_trace (ch : channel) (r : gmap string json) :
  wants_reply r = false →
  trace (send_event ch r) =
    match socket_outcome ch, connect_outcome ch, sendall_outcome ch with
    | Some _, _, _ => [Socket]
    | None, Some _, _ => calls_until_connect
    | None, None, Some _ => calls_until_sendall r
    | None, None, None => calls_until_sendall r ++ [Close]
    end.
Proof. intros Hr. by rewrite (send_event_no_reply _ _ Hr). Qed.

(** The approval exchange when no decision comes back. *)
Lemma approval_run_no_decision (ch : channel) (r : gmap string json) :
  wants_reply r = true →
  channel_error ch ∨ no_response ch ∨ recv_outcome ch = inr NotJSON →
  exit_status (approval_exchange ch r) = Exited 0
  ∧ stdout (approval_exchange ch r) = [].
Proof.
  intros Hr Hch. unfold approval_exchange. rewrite (send_event_reply _ _ Hr).
  unfold channel_error, no_response in Hch.
  destruct ch as [so co sdo ro]; cbn in *.
  destruct so; [done|]. destruct co; [done|]. destruct sdo; [done|].
  destruct ro as [e|[| | |[|]|v]]; try done.
  all: exfalso; destruct Hch as [Hch|[Hch|Hch]]; try discriminate.
  all: destruct Hch as [[? [=]]|[[? [=]]|[[? [=]]|[? [=]]]]].
Qed.

(** The approval exchange when the monitor answers with a JSON object. *)
Lemma approval_run_answer (ch : channel) (r reply : gmap string json) :
  wants_reply r = true →
  answers ch reply →
  approval_exchange ch r =
    (calls_until_recv r ++ [Close]
       ++ (permission_decision (A := unit) (JObj reply)).1,
     (permission_decision (A := unit) (JObj reply)).2).
Proof.
  intros Hr (Hso & Hco & Hsdo & Hro). unfold approval_exchange. rewrite (send_event_reply _ _ Hr).
  rewrite Hso, Hco, Hsdo, Hro.
  unfold mbind at 1, M_bind. destruct (permission_decision (JObj reply)).
  by rewrite <- (assoc_L (++)).
Qed.

(** ** What a run writes *)

Lemma sent_bind {A B : Type} (m : M A) (f : A → M B) :
  sent (m ≫= f) =
    sent m ++ match m.2 with Return a => sent (f a) | Raise _ => [] end.
Proof.
  unfold sent. rewrite trace_bind, omap_app. by destruct m as [t [a|e]].
Qed.

Lemma stdout_bind {A B : Type} (m : M A) (f : A → M B) :
  stdout (m ≫= f) =
    stdout m ++ match m.2 with Return a => stdout (f a) | Raise _ => [] end.
Proof.
  unfold stdout. rewrite trace_bind, omap_app. by destruct m as [t [a|e]].
Qed.

Lemma sent_send_event (ch : channel) (r : gmap string json) :
  sent (send_event ch r) = if connects ch then [r] else [].
Proof.
  unfold connects. destruct (wants_reply r) eqn:Hr.
  - rewrite (send_event_reply _ _ Hr).
    destruct ch as [[?|] [?|] [?|] [?|[| | |[|]|?]]]; reflexivity.
  - rewrite (send_event_no_reply _ _ Hr).
    destruct ch as [[?|] [?|] [?|] ?]; reflexivity.
Qed.

Lemma stdout_send_event (ch : channel) (r : gmap string json) :
  stdout (send_event ch r) = [].
Proof.
  destruct (wants_reply r) eqn:Hr.
  - rewrite (send_event_reply _ _ Hr).
    destruct ch as [[?|] [?|] [?|] [?|[| | |[|]|?]]]; reflexivity.
  - rewrite (send_event_no_reply _ _ Hr).
    destruct ch as [[?|] [?|] [?|] ?]; reflexivity.
Qed.

Lemma sent_permission_decision (response : json) :
  sent (permission_decision (A := unit) response) = [].
Proof.
  rewrite permission_decision_cases.
  destruct (truthy response); [|reflexivity].
  destruct response; try reflexivity.
  destruct (py_eq _ "allow"); [reflexivity|].
  destruct (py_eq _ "deny"); reflexivity.
Qed.

Lemma sent_fire_and_forget (ch : channel) (r : gmap string json) :
  sent (fire_and_forget ch r) = if connects ch then [r] else [].
Proof.
  unfold fire_and_forget. rewrite sent_bind, sent_send_event.
  destruct (send_event ch r).2; cbn; by rewrite (right_id_L [] (++)).
Qed.

Lemma sent_approval_exchange (ch : channel) (r : gmap string json) :
  sent (approval_exchange ch r) = if connects ch then [r] else [].
Proof.
  unfold approval_exchange. rewrite sent_bind, sent_send_event.
  destruct (send_event ch r).2; rewrite ?sent_permission_decision;
    by rewrite (right_id_L [] (++)).
Qed.

Lemma sent_relay (w : world) (data : gmap string json) (r : row) :
  sent (relay w data r) =
    match r with
    | Suppressed => []
    | Emit ev extra => if connects (monitor w) then [record_of w data ev extra] else []
    end.
Proof.
  destruct r as [|ev extra]; [reflexivity|]. unfold relay.
  destruct (String.eqb ev _);
    [apply sent_approval_exchange|apply sent_fire_and_forget].
Qed.

(** * The claims *)

(** ** C1: the dispatch table *)

Section DispatchTable.

Variable str_of_value : json → string.

(** C1, amended.  For every inbound JSON object, [main] behaves as the
    dispatch table of section 4.1 says, where "tool_use_id (if present)"
    is read as "if present and true in Python's sense" (not null, not an
    empty string): it assigns the row's canonical event type, copies
    exactly the row's extra fields into the record, and relays the record
    as step 4 prescribes; an unrecognized hook name gives event type
    [notification] with message ["Unknown event: " + name].  In
    particular the record written, when the monitor takes the connection,
    is the record of the row, and nothing is written for the suppressed
    notification. *)
Theorem main_follows_table (w : world) (data : gmap string json) :
  stdin w = StdinJSON (JObj data) →
  main str_of_value w = relay w data (table_4_1 str_of_value truthy data)
  ∧ sent (main str_of_value w) =
      match table_4_1 str_of_value truthy data with
      | Suppressed => []
      | Emit ev extra =>
          if connects (monitor w) then [record_of w data ev extra] else []
      end
  ∧ (is_known (default (JStr "") (data !! "hook_event_name")) = false →
     main str_of_value w =
       fire_and_forget (monitor w)
         (<["message" :=
              JStr ("Unknown event: "
                    +:+ format_value str_of_value
                          (default (JStr "") (data !! "hook_event_name")))]>
            (<["event_type" := JStr "notification"]> (base_record w data)))).
Proof.
  intros Hin. rewrite (main_dispatch _ _ _ Hin). split_and!; [done| |].
  - apply sent_relay.
  - unfold is_known, known_hooks, table_4_1. cbn [existsb].
    rewrite !orb_false_iff.
    intros (-> & -> & -> & -> & -> & -> & -> & -> & -> & -> & _).
    unfold relay. eval_eqb. cbv iota.
    by rewrite record_of_insert, record_of_no_extra.
Qed.

End DispatchTable.

Lemma main_follows_table_witness :
  sent (main str_simple
          (world_of (StdinJSON (JObj pre_tool_use_empty_id))
                    (listening (inr NoBytes))))
  = [record_of (world_of (StdinJSON (JObj pre_tool_use_empty_id))
                         (listening (inr NoBytes)))
               pre_tool_use_empty_id "running_tool"
               (tool_fields truthy pre_tool_use_empty_id)].
Proof.
  apply (main_follows_table str_simple
           (world_of (StdinJSON (JObj pre_tool_use_empty_id))
                     (listening (inr NoBytes)))
           pre_tool_use_empty_id).
  reflexivity.
Defined.

(** C1 as stated fails: with "tool_use_id (if present)" read as "whenever
    the inbound record has the field", the table asks for a [tool_use_id]
    in the record of a [PreToolUse] whose [tool_use_id] is the empty
    string; the record [main] writes has none. *)
Lemma table_as_stated_fails :
  ¬ ∀ (w : world) (data : gmap string json),
      stdin w = StdinJSON (JObj data) →
      main str_simple w = relay w data (table_4_1 str_simple always data).
Proof.
  intros Hclaim.
  specialize (Hclaim (world_of (StdinJSON (JObj pre_tool_use_empty_id))
                               (listening (inr NoBytes)))
                     pre_tool_use_empty_id eq_refl).
  apply (f_equal (λ m, (λ r : gmap string json, r !! "tool_use_id") <$> sent m))
    in Hclaim.
  vm_compute in Hclaim. discriminate Hclaim.
Qed.

(** ** C2: the decision relay *)

Lemma truthy_object_lookup (m : gmap string json) (k : string) (v : json) :
  m !! k = Some v → truthy (JObj m) = true.
Proof.
  intros Hk. cbn. apply negb_true_iff, bool_decide_eq_false.
  intros Hdom. apply (not_elem_of_empty (C := gset string) k).
  rewrite <- Hdom. apply elem_of_dom. by exists v.
Qed.

Lemma approval_answer_observed (ch : channel) (r reply : gmap string json) :
  wants_reply r = true →
  answers ch reply →
  stdout (approval_exchange ch r) = stdout (permission_decision (A := unit) (JObj reply))
  ∧ exit_status (approval_exchange ch r)
    = exit_status (permission_decision (A := unit) (JObj reply)).
Proof.
  intros Hr Hch. rewrite (approval_run_answer _ _ _ Hr Hch).
  destruct (permission_decision (JObj reply)) as [t res]. split; [|done].
  unfold stdout, trace. cbn [fst]. by rewrite !omap_app.
Qed.



Section DecisionRelay.

Variable str_of_value : json → string.

Lemma main_permission_request (w : world) (data : gmap string json) :
  stdin w = StdinJSON (JObj data) →
  data !! "hook_event_name" = Some (JStr "PermissionRequest") →
  ∃ r, wants_reply r = true
       ∧ main str_of_value w = approval_exchange (monitor w) r.
Proof.
  intros Hin Hname. pose proof (main_cases str_of_value w data Hin) as Hrun.
  unfold suppressed in Hrun. rewrite Hname in Hrun. cbn in Hrun.
  destruct Hrun as (ev & extra & _ & Hr & Hrun). eauto.
Qed.


End DecisionRelay.


(** ** C3 and C4: failures of the channel, and the exit code *)

Lemma fire_and_forget_observed (ch : channel) (r : gmap string json) :
  wants_reply r = false →
  exit_status (fire_and_forget ch r) = Exited 0
  ∧ stdout (fire_and_forget ch r) = []
  ∧ sockets_opened (fire_and_forget ch r) = 1
  ∧ ∀ e, e ∈ trace (fire_and_forget ch r) → is_recv e = false.
Proof.
  intros Hr. rewrite (forward_run _ _ Hr), (forward_trace _ _ Hr).
  split_and!; [done| | |].
  - destruct (socket_outcome ch), (connect_outcome ch), (sendall_outcome ch);
      reflexivity.
  - destruct (socket_outcome ch), (connect_outcome ch), (sendall_outcome ch);
      reflexivity.
  - intros e. unfold trace. cbn [fst].
    destruct (socket_outcome ch), (connect_outcome ch), (sendall_outcome ch);
      unfold calls_until_sendall, calls_until_connect; cbn [app];
      rewrite ?elem_of_cons, elem_of_nil; intros He;
      repeat destruct He as [->|He]; done.
Qed.

Lemma approval_exchange_status (ch : channel) (r : gmap string json) :
  wants_reply r = true →
  exit_status (approval_exchange ch r) = Exited 0
  ∨ ∃ e, exit_status (approval_exchange ch r) = Uncaught e.
Proof.
  intros Hr. unfold approval_exchange. rewrite (send_event_reply _ _ Hr).
  destruct ch as [[?|] [?|] [?|] [?|[| | |[|]|v]]]; cbn; eauto.
  unfold exit_status, mbind, M_bind.
  rewrite (permission_decision_cases (A := unit) v).
  destruct (truthy v); [|auto].
  destruct v; eauto.
  destruct (py_eq _ "allow"); [auto|].
  destruct (py_eq _ "deny"); auto.
Qed.

Section Absorbed.

Variable str_of_value : json → string.

(** The failures the [except] clause of [send_event] names are absorbed:
    when a socket call raises an [OSError] (connection refused, timeout,
    reset), when the reply is empty, and when it is text that is not JSON,
    a run on a JSON object prints nothing and exits with code 0. *)
Lemma named_failures_absorbed (w : world) (data : gmap string json) :
  stdin w = StdinJSON (JObj data) →
  channel_error (monitor w) ∨ no_response (monitor w)
    ∨ recv_outcome (monitor w) = inr NotJSON →
  exit_status (main str_of_value w) = Exited 0
  ∧ stdout (main str_of_value w) = [].
Proof.
  intros Hin Hch. pose proof (main_cases str_of_value w data Hin) as Hrun.
  destruct (suppressed data); [by rewrite Hrun|].
  destruct Hrun as (ev & extra & _ & Hr & ->).
  destruct (py_eq _ "PermissionRequest").
  - by apply approval_run_no_decision.
  - by destruct (fire_and_forget_observed (monitor w) _ Hr) as (? & ? & _).
Qed.

(** Any number of runs on the same inbound record that find nobody
    listening exit with code 0 and print nothing. *)
Lemma unreachable_runs_are_silent (ws : list world) (data : gmap string json) :
  Forall (λ w, stdin w = StdinJSON (JObj data)
               ∧ is_Some (connect_outcome (monitor w))) ws →
  Forall (λ w, exit_status (main str_of_value w) = Exited 0
               ∧ stdout (main str_of_value w) = []) ws.
Proof.
  intros Hws. eapply Forall_impl; [exact Hws|]. intros w [Hin Hch].
  apply (named_failures_absorbed w data Hin). left. unfold channel_error. auto.
Qed.

(** Standard input that is not JSON: exit code 1, nothing written. *)
Lemma invalid_stdin_exits_1 (w : world) :
  stdin w = StdinInvalid →
  main str_of_value w = ([], Raise (SystemExit 1)).
Proof. intros Hin. unfold main, json_load. by rewrite Hin. Qed.

(** [sys.exit(1)] is reached for no other input. *)
Lemma exited_1_only_for_invalid_stdin (w : world) :
  exit_status (main str_of_value w) = Exited 1 → stdin w = StdinInvalid.
Proof.
  intros Hexit.
  destruct (stdin_failure (stdin w)) as [e|] eqn:Hfail.
  - rewrite (main_stdin_failure _ _ _ Hfail) in Hexit.
    unfold stdin_failure in Hfail.
    destruct (stdin w) as [| |[|]|[]]; [done|..]; try discriminate Hfail;
      injection Hfail as <-; discriminate Hexit.
  - exfalso. apply stdin_failure_none in Hfail as [data Hin].
    pose proof (main_cases str_of_value w _ Hin) as Hrun.
    destruct (suppressed data); [by rewrite Hrun in Hexit|].
    destruct Hrun as (ev & extra & _ & Hr & Hrun). rewrite Hrun in Hexit.
    destruct (py_eq _ "PermissionRequest").
    + destruct (approval_exchange_status (monitor w) _ Hr) as [H|[e H]];
        congruence.
    + destruct (fire_and_forget_observed (monitor w) _ Hr) as (H & _).
      congruence.
Qed.

(** On a JSON object, a run that is not a permission request exits with
    code 0 whatever the channel does, and a permission request exits with
    code 0 whenever the monitor answers with a JSON object. *)
Lemma defined_paths_exit_0 (w : world) (data : gmap string json) :
  stdin w = StdinJSON (JObj data) →
  (data !! "hook_event_name" ≠ Some (JStr "PermissionRequest")
   ∨ ∃ reply, answers (monitor w) reply) →
  exit_status (main str_of_value w) = Exited 0.
Proof.
  intros Hin Hpath. pose proof (main_cases str_of_value w data Hin) as Hrun.
  destruct (suppressed data); [by rewrite Hrun|].
  destruct Hrun as (ev & extra & _ & Hr & ->).
  destruct (py_eq _ "PermissionRequest") eqn:Hpr.
  - destruct Hpath as [Hname|[reply Hch]].
    + apply py_eq_true in Hpr. exfalso. apply Hname.
      destruct (data !! "hook_event_name"); cbn in Hpr; by subst.
    + destruct (approval_answer_observed _ _ _ Hr Hch) as [_ ->].
      rewrite permission_decision_cases.
      destruct (truthy (JObj reply)); [|done].
      destruct (py_eq _ "allow"); [done|]. by destruct (py_eq _ "deny").
  - by destruct (fire_and_forget_observed (monitor w) _ Hr) as (? & _).
Qed.

End Absorbed.

(** C3: the code at the failing input.  Standard input is a JSON object,
    a [PermissionRequest]; the monitor's reply is malformed: its bytes are
    not UTF-8.  [response.decode()] raises [UnicodeDecodeError], which the
    [except] clause of [send_event] does not name: the failure is not
    absorbed, the exception leaves [main] uncaught. *)
Theorem undecodable_reply_not_absorbed :
  stdin garbled_reply_world = StdinJSON (JObj permission_request_bash)
  ∧ malformed_response (monitor garbled_reply_world)
  ∧ trace (main str_simple garbled_reply_world)
    = calls_until_recv
        (record_of garbled_reply_world permission_request_bash
           "waiting_for_approval" (tool_fields never permission_request_bash))
        ++ [Close]
  ∧ exit_status (main str_simple garbled_reply_world)
    = Uncaught UnicodeDecodeError.
Proof.
  split; [reflexivity|]. split; [by left|].
  rewrite (main_dispatch str_simple garbled_reply_world
             permission_request_bash eq_refl).
  change (table_4_1 str_simple truthy permission_request_bash)
    with (Emit "waiting_for_approval" (tool_fields never permission_request_bash)).
  unfold relay. eval_eqb. cbv iota. unfold approval_exchange.
  rewrite send_event_reply; [done|].
  rewrite record_wants_reply; [done|].
  pose proof (tool_fields_never_dom permission_request_bash).
  unfold base_fields. set_solver.
Qed.

(** C4: the code at the same input.  The initial parse succeeds and the
    process ends with exit code 1. *)
Theorem exit_code_1_after_successful_parse :
  stdin garbled_reply_world ≠ StdinInvalid
  ∧ exit_code (main str_simple garbled_reply_world) = 1%Z.
Proof. split; [discriminate|]. vm_compute. reflexivity. Qed.

(** ** C5: the number of writes *)

Lemma sockets_opened_send_event (ch : channel) (r : gmap string json) :
  length (filter (λ e, is_socket e) (trace (send_event ch r))) = 1.
Proof.
  destruct (wants_reply r) eqn:Hr.
  - rewrite (send_event_reply _ _ Hr).
    destruct ch as [[?|] [?|] [?|] [?|[| | |[|]|?]]]; reflexivity.
  - rewrite (send_event_no_reply _ _ Hr).
    destruct ch as [[?|] [?|] [?|] ?]; reflexivity.
Qed.

Lemma sockets_opened_permission_decision (response : json) :
  filter (λ e, is_socket e) (trace (permission_decision (A := unit) response)) = [].
Proof.
  rewrite permission_decision_cases.
  destruct (truthy response); [|reflexivity].
  destruct response; try reflexivity.
  destruct (py_eq _ "allow"); [reflexivity|].
  destruct (py_eq _ "deny"); reflexivity.
Qed.

Lemma sockets_opened_approval_exchange (ch : channel) (r : gmap string json) :
  sockets_opened (approval_exchange ch r) = 1.
Proof.
  unfold sockets_opened, approval_exchange.
  rewrite trace_bind, filter_app, length_app, sockets_opened_send_event.
  destruct (send_event ch r).2;
    by rewrite ?sockets_opened_permission_decision.
Qed.

Section Writes.

Variable str_of_value : json → string.

(** C5, amended.  A run whose standard input is not JSON makes no socket
    call.  A run on a JSON object that is the [permission_prompt]
    notification makes none either and exits with code 0.  Every other run
    on a JSON object calls [send_event] exactly once (it opens one
    socket), and writes its record to the socket exactly once when the
    connection is established and not at all when it is not. *)
Theorem writes_per_invocation (w : world) :
  (stdin w = StdinInvalid → trace (main str_of_value w) = [])
  ∧ ∀ data,
      stdin w = StdinJSON (JObj data) →
      if suppressed data
      then main str_of_value w = ([], Raise (SystemExit 0))
      else sockets_opened (main str_of_value w) = 1
           ∧ length (sent (main str_of_value w))
             = if connects (monitor w) then 1 else 0.
Proof.
  split.
  - intros Hin. by rewrite (invalid_stdin_exits_1 _ _ Hin).
  - intros data Hin. pose proof (main_cases str_of_value w data Hin) as Hrun.
    destruct (suppressed data); [done|].
    destruct Hrun as (ev & extra & _ & Hr & ->).
    destruct (py_eq _ "PermissionRequest").
    + rewrite sockets_opened_approval_exchange, sent_approval_exchange.
      by destruct (connects (monitor w)).
    + rewrite sent_fire_and_forget.
      destruct (fire_and_forget_observed (monitor w) _ Hr) as (_ & _ & -> & _).
      by destruct (connects (monitor w)).
Qed.

End Writes.

Lemma writes_per_invocation_witness :
  sockets_opened (main str_simple (world_of (StdinJSON (JObj stop_event)) unreachable)) = 1
  ∧ length (sent (main str_simple (world_of (StdinJSON (JObj stop_event)) unreachable))) = 0.
Proof.
  apply (proj2 (writes_per_invocation str_simple
                  (world_of (StdinJSON (JObj stop_event)) unreachable))
               stop_event).
  reflexivity.
Defined.

(** C5 as stated fails: a run whose standard input is not JSON, and a
    [Stop] run that finds nobody listening on the socket, are not the
    suppressed notification and write nothing to the socket. *)
Lemma one_write_per_invocation_fails :
  ¬ (¬ suppressed_input (world_of StdinInvalid (listening (inr NoBytes))) →
     length (sent (main str_simple (world_of StdinInvalid (listening (inr NoBytes))))) = 1)
  ∧ ¬ (¬ suppressed_input (world_of (StdinJSON (JObj stop_event)) unreachable) →
       length (sent (main str_simple
                       (world_of (StdinJSON (JObj stop_event)) unreachable))) = 1).
Proof.
  split; intros Hclaim.
  - assert (Hlen : length (sent (main str_simple
             (world_of StdinInvalid (listening (inr NoBytes))))) = 1).
    { apply Hclaim. intros (data & [=] & _). }
    vm_compute in Hlen. discriminate Hlen.
  - assert (Hlen : length (sent (main str_simple
             (world_of (StdinJSON (JObj stop_event)) unreachable))) = 1).
    { apply Hclaim. intros (data & [= <-] & [=] & _). }
    vm_compute in Hlen. discriminate Hlen.
Qed.

(** ** C6: no read without an approval *)

Lemma recv_in_approval_exchange (ch : channel) (r : gmap string json) :
  ∀ e, e ∈ trace (send_event ch r) → is_recv e = true → wants_reply r = true.
Proof.
  intros e He Hrecv. destruct (wants_reply r) eqn:Hr; [done|].
  rewrite (forward_trace _ _ Hr) in He.
  destruct (socket_outcome ch), (connect_outcome ch), (sendall_outcome ch);
    unfold calls_until_sendall, calls_until_connect in He; cbn [app] in He;
    rewrite ?elem_of_cons, elem_of_nil in He;
    repeat destruct He as [->|He]; done.
Qed.

Section Reads.

Variable str_of_value : json → string.

(** C6.  When the record's event type is not [waiting_for_approval],
    [send_event] makes no [recv] call after writing the record and returns
    [None], whatever the monitor would have answered; a [recv] call occurs
    only for a record whose event type is [waiting_for_approval].  So a run
    of [main] on any hook other than [PermissionRequest] reads nothing
    from the socket. *)
Theorem read_only_for_approval (ch : channel) (r : gmap string json) :
  (r !! "event_type" ≠ Some (JStr "waiting_for_approval") →
   (∀ e, e ∈ trace (send_event ch r) → is_recv e = false)
   ∧ (send_event ch r).2 = Return JNull)
  ∧ (∀ e, e ∈ trace (send_event ch r) → is_recv e = true →
     r !! "event_type" = Some (JStr "waiting_for_approval"))
  ∧ (∀ w data,
       stdin w = StdinJSON (JObj data) →
       data !! "hook_event_name" ≠ Some (JStr "PermissionRequest") →
       ∀ e, e ∈ trace (main str_of_value w) → is_recv e = false).
Proof.
  split_and!.
  - intros Hev.
    assert (Hr : wants_reply r = false).
    { apply not_true_is_false. by rewrite wants_reply_true. }
    split.
    + intros e He. apply not_true_is_false. intros Hrecv.
      pose proof (recv_in_approval_exchange ch r e He Hrecv). congruence.
    + by rewrite (send_event_no_reply _ _ Hr).
  - intros e He Hrecv. apply wants_reply_true.
    by apply (recv_in_approval_exchange ch r e).
  - intros w data Hin Hname e.
    pose proof (main_cases str_of_value w data Hin) as Hrun.
    destruct (suppressed data); [rewrite Hrun; by intros ?%elem_of_nil|].
    destruct Hrun as (ev & extra & _ & Hr & ->).
    destruct (py_eq _ "PermissionRequest") eqn:Hpr.
    + apply py_eq_true in Hpr. exfalso. apply Hname.
      destruct (data !! "hook_event_name"); cbn in Hpr; by subst.
    + by apply fire_and_forget_observed.
Qed.

End Reads.

Lemma read_only_for_approval_witness :
  (send_event (listening (inr (JSONText (JObj deny_because_x))))
     (record_of (world_of (StdinJSON (JObj stop_event)) unreachable)
        stop_event "waiting_for_input" ∅)).2
  = Return JNull.
Proof.
  apply (proj1 (read_only_for_approval str_simple
                  (listening (inr (JSONText (JObj deny_because_x))))
                  (record_of (world_of (StdinJSON (JObj stop_event)) unreachable)
                     stop_event "waiting_for_input" ∅))).
  vm_compute. discriminate.
Defined.

(** ** C7: the terminal field *)

Lemma base_record_tty (w : world) (data : gmap string json) :
  base_record w data !! "tty" = Some (of_optional_str (get_tty w)).
Proof. unfold base_record. by rewrite lookup_insert_eq. Qed.

Lemma record_of_tty (w : world) (data : gmap string json) ev extra :
  dom extra ## base_fields →
  record_of w data ev extra !! "tty" = Some (of_optional_str (get_tty w)).
Proof.
  intros Hdisj. unfold record_of.
  assert (extra !! "tty" = None) as Hnone.
  { apply not_elem_of_dom. intros Hin. apply (Hdisj "tty" Hin).
    unfold base_fields. set_solver. }
  rewrite lookup_union_r by done.
  rewrite lookup_insert_ne by done. apply base_record_tty.
Qed.

Lemma startswith_app (p s : string) : startswith (p +:+ s) p = true.
Proof.
  unfold startswith. induction p as [|c p IH]; simpl; [by destruct s|].
  destruct (ascii_dec c c); [exact IH|congruence].
Qed.

(** On Linux, [ps] prints [?] for a process without a terminal; that
    output passes the test of [get_tty]. *)
Lemma get_tty_question_mark (w : world) :
  ps_tty w (getppid w) = PsStdout "?" → get_tty w = Some "/dev/?".
Proof. intros Hps. unfold get_tty. by rewrite Hps. Qed.

Section Terminal.

Variable str_of_value : json → string.

Lemma sent_main_record (w : world) (r : gmap string json) :
  r ∈ sent (main str_of_value w) →
  ∃ data ev extra,
    stdin w = StdinJSON (JObj data)
    ∧ table_4_1 str_of_value truthy data = Emit ev extra
    ∧ r = record_of w data ev extra.
Proof.
  intros Hr. destruct (stdin_failure (stdin w)) as [e|] eqn:Hfail.
  { rewrite (main_stdin_failure _ _ _ Hfail) in Hr.
    by apply elem_of_nil in Hr. }
  apply stdin_failure_none in Hfail as [data Hin].
  rewrite (main_dispatch _ _ _ Hin), sent_relay in Hr.
  destruct (table_4_1 str_of_value truthy data) as [|ev extra] eqn:Hrow;
    [by apply elem_of_nil in Hr|].
  destruct (connects (monitor w)); [|by apply elem_of_nil in Hr].
  apply list_elem_of_singleton in Hr. eauto 6.
Qed.

(** C7, amended.  Every record written to the socket has a [tty] field:
    it holds what the terminal resolution returned, a path or, exactly
    when the resolution fails entirely, [null].  The field is never left
    out. *)
Theorem tty_field_of_every_record (w : world) (r : gmap string json) :
  r ∈ sent (main str_of_value w) →
  r !! "tty" = Some (of_optional_str (get_tty w))
  ∧ (get_tty w = None ↔ r !! "tty" = Some JNull).
Proof.
  intros Hr. destruct (sent_main_record w r Hr) as (data & ev & extra & _ & Hrow & ->).
  destruct (table_emit _ _ _ _ Hrow) as (_ & _ & Hdom & _).
  assert (dom extra ## base_fields) as Hdisj.
  { pose proof (column_disjoint data). set_solver. }
  rewrite (record_of_tty _ _ _ _ Hdisj). split; [done|].
  destruct (get_tty w); cbn; split; (done || intros [=]).
Qed.

End Terminal.

Lemma stop_world_sent :
  sent (main str_simple stop_world)
  = [record_of stop_world stop_event "waiting_for_input" ∅].
Proof.
  by rewrite (main_dispatch str_simple stop_world stop_event eq_refl), sent_relay.
Qed.

Lemma tty_field_of_every_record_witness :
  record_of stop_world stop_event "waiting_for_input" ∅ !! "tty"
  = Some (of_optional_str (get_tty stop_world)).
Proof.
  refine (proj1 (tty_field_of_every_record str_simple stop_world
                   (record_of stop_world stop_event "waiting_for_input" ∅) _)).
  rewrite stop_world_sent. apply list_elem_of_here.
Defined.

(** The placeholder that [ps] prints on Linux is not among the values
    [get_tty] sets aside (line 32): it reaches the monitor as the path
    [/dev/?]. *)
Lemma question_mark_reaches_the_monitor :
  sent (main str_simple stop_world_linux)
  = [record_of stop_world_linux stop_event "waiting_for_input" ∅]
  ∧ record_of stop_world_linux stop_event "waiting_for_input" ∅ !! "tty"
    = Some (JStr "/dev/?").
Proof.
  split; [|by vm_compute].
  by rewrite (main_dispatch str_simple stop_world_linux stop_event eq_refl),
       sent_relay.
Qed.

(** C7 as stated fails: in a [Stop] run where terminal resolution fails
    entirely, the record written has the [tty] field, with value [null];
    the field is not left out. *)
Lemma tty_omitted_on_failure_fails :
  ¬ ∀ (w : world) (r : gmap string json),
      r ∈ sent (main str_simple w) → get_tty w = None → r !! "tty" = None.
Proof.
  intros Hclaim.
  specialize (Hclaim stop_world
    (record_of stop_world stop_event "waiting_for_input" ∅)).
  rewrite stop_world_sent in Hclaim.
  specialize (Hclaim (list_elem_of_here _ _) eq_refl).
  vm_compute in Hclaim. discriminate Hclaim.
Qed.

(** ** C8: nothing leaks into the record *)

Lemma dom_base_record (w : world) (data : gmap string json) (ev : string) :
  dom (<["event_type" := JStr ev]> (base_record w data)) = base_fields.
Proof.
  unfold base_record, base_fields. rewrite !dom_insert_L, dom_empty_L.
  set_solver.
Qed.

Lemma dom_record_of (w : world) (data : gmap string json) ev extra :
  dom (record_of w data ev extra) = dom extra ∪ base_fields.
Proof.
  unfold record_of. by rewrite dom_union_L, dom_base_record.
Qed.

Section Leaks.

Variable str_of_value : json → string.

(** C8, amended.  In every record written to the socket, the fields beyond
    the base fields (session_id, cwd, pid, tty, event_type) form a subset
    of the fields the table of section 4.1 names for the hook (all of
    them, in most rows: the subset is not a proper one), each with the
    value the table gives it: the inbound value of the field ([null], or
    an empty object for [tool_input], when the inbound record lacks it),
    the inbound notification type for [title], the synthesized text for
    the message of an unknown hook.  No other inbound field is in the
    record. *)
Theorem extra_fields_within_column (w : world) (data r : gmap string json) :
  stdin w = StdinJSON (JObj data) →
  r ∈ sent (main str_of_value w) →
  dom r ∖ base_fields ⊆ column data
  ∧ (∀ k, k ∈ dom r ∖ base_fields →
       r !! k = Some (column_value str_of_value data k))
  ∧ (∀ k, k ∈ dom data → k ∉ base_fields → k ∉ column data → r !! k = None).
Proof.
  intros Hin Hr.
  destruct (sent_main_record str_of_value w r Hr)
    as (data' & ev & extra & Hin' & Hrow & ->).
  assert (data' = data) as -> by congruence.
  destruct (table_emit _ _ _ _ Hrow) as (_ & _ & Hdom & Hval).
  rewrite dom_record_of. split_and!.
  - set_solver.
  - intros k Hk.
    assert (k ∈ dom extra) as [v Hv]%elem_of_dom by set_solver.
    unfold record_of. rewrite (lookup_union_Some_l _ _ _ _ Hv).
    by rewrite (Hval k v Hv).
  - intros k _ Hbase Hcol. apply not_elem_of_dom. rewrite dom_record_of.
    set_solver.
Qed.

End Leaks.

Lemma permission_world_sent :
  sent (main str_simple permission_world)
  = [record_of permission_world permission_request_bash
       "waiting_for_approval" (tool_fields never permission_request_bash)].
Proof.
  by rewrite (main_dispatch str_simple permission_world
                permission_request_bash eq_refl), sent_relay.
Qed.

Lemma extra_fields_within_column_witness :
  dom (record_of permission_world permission_request_bash
         "waiting_for_approval" (tool_fields never permission_request_bash))
    ∖ base_fields
  ⊆ column permission_request_bash.
Proof.
  refine (proj1 (extra_fields_within_column str_simple permission_world
                   permission_request_bash _ eq_refl _)).
  rewrite permission_world_sent. apply list_elem_of_here.
Defined.

(** C8 as stated fails: the record written for a [PermissionRequest] has,
    beyond the base fields, exactly the two fields the table names for that
    row, [tool_name] and [tool_input]: a subset of the named fields, but
    not a strict one. *)
Lemma strict_subset_fails :
  ¬ ∀ (w : world) (data r : gmap string json),
      stdin w = StdinJSON (JObj data) →
      r ∈ sent (main str_simple w) →
      dom r ∖ base_fields ⊂ column data.
Proof.
  intros Hclaim.
  specialize (Hclaim permission_world permission_request_bash
    (record_of permission_world permission_request_bash
       "waiting_for_approval" (tool_fields never permission_request_bash))
    eq_refl).
  rewrite permission_world_sent in Hclaim.
  specialize (Hclaim (list_elem_of_here _ _)).
  destruct Hclaim as [_ Hproper]. apply Hproper.
  assert (column permission_request_bash = {[ "tool_name"; "tool_input" ]}) as ->
    by reflexivity.
  rewrite dom_record_of.
  assert (dom (tool_fields never permission_request_bash)
          = {[ "tool_name"; "tool_input" ]}) as -> by (vm_compute; reflexivity).
  unfold base_fields. set_solver.
Qed.

(** ** C9: the timeout *)

(** C9, amended.  Every blocking socket call of [send_event] (the
    connect, the write and, for an approval, the read) runs on a socket
    whose timeout was set to [TIMEOUT_SECONDS], 300 seconds, before the
    connect: a fire-and-forget send is guarded by the same timeout as the
    approval read. *)
Theorem every_socket_call_has_the_timeout
    (ch : channel) (r : gmap string json) (e : effect) (t : option Z) :
  e ∈ trace (send_event ch r) →
  timeout_of e = Some t →
  t = Some TIMEOUT_SECONDS ∧ TIMEOUT_SECONDS = 300%Z.
Proof.
  intros He Ht. split; [|reflexivity].
  destruct (wants_reply r) eqn:Hr.
  - rewrite (send_event_reply _ _ Hr) in He.
    destruct ch as [[?|] [?|] [?|] [?|[| | |[|]|?]]];
      unfold trace, calls_until_recv, calls_until_sendall, calls_until_connect in He;
      cbn [fst app socket_outcome connect_outcome sendall_outcome recv_outcome] in He;
      rewrite ?elem_of_cons, elem_of_nil in He;
      repeat destruct He as [->|He]; cbn in Ht;
      first [done | discriminate Ht | injection Ht as <-; reflexivity].
  - rewrite (forward_trace _ _ Hr) in He.
    destruct ch as [[?|] [?|] [?|] ?];
      unfold calls_until_sendall, calls_until_connect in He;
      cbn [app socket_outcome connect_outcome sendall_outcome] in He;
      rewrite ?elem_of_cons, elem_of_nil in He;
      repeat destruct He as [->|He]; cbn in Ht;
      first [done | discriminate Ht | injection Ht as <-; reflexivity].
Qed.

Lemma every_socket_call_has_the_timeout_witness :
  Connect SOCKET_PATH (Some 300%Z)
    ∈ trace (send_event (listening (inr NoBytes))
               (record_of stop_world stop_event "waiting_for_input" ∅))
  ∧ Some 300%Z = Some TIMEOUT_SECONDS.
Proof.
  assert (Hin : Connect SOCKET_PATH (Some 300%Z)
                  ∈ trace (send_event (listening (inr NoBytes))
                             (record_of stop_world stop_event "waiting_for_input" ∅))).
  { rewrite forward_trace by (vm_compute; reflexivity).
    apply list_elem_of_further, list_elem_of_here. }
  split; [exact Hin|].
  exact (proj1 (every_socket_call_has_the_timeout _ _ _ _ Hin eq_refl)).
Defined.

(** C9 as stated fails: in the fire-and-forget send of a [Stop] record the
    connect and the write run under the 300-second timeout, not without
    one. *)
Lemma unguarded_send_fails :
  ¬ ∀ (ch : channel) (r : gmap string json) (e : effect) (t : option Z),
      wants_reply r = false →
      e ∈ trace (send_event ch r) →
      timeout_of e = Some t →
      t = None.
Proof.
  intros Hclaim.
  assert (Hr : wants_reply (record_of stop_world stop_event "waiting_for_input" ∅)
               = false) by (vm_compute; reflexivity).
  specialize (Hclaim (listening (inr NoBytes))
    (record_of stop_world stop_event "waiting_for_input" ∅)
    (Connect SOCKET_PATH (Some 300%Z)) (Some 300%Z) Hr).
  rewrite (forward_trace _ _ Hr) in Hclaim.
  discriminate Hclaim; [apply list_elem_of_further, list_elem_of_here|reflexivity].
Qed.

(** ** C10: standard input that is not an object *)

Section NonObject.

Variable str_of_value : json → string.

(** C10.  When standard input holds valid JSON whose top-level value is not
    an object, [main] ends in an [AttributeError] raised by its first
    [.get]: nothing was written to the socket or to standard output, and
    the run is neither the parse-failure exit nor a successful one. *)
Theorem main_non_object_stdin_raises (w : world) (v : json) :
  stdin w = StdinJSON v →
  is_object v = false →
  main str_of_value w = ([], Raise AttributeError)
  ∧ exit_status (main str_of_value w) = Uncaught AttributeError
  ∧ exit_status (main str_of_value w) ≠ Exited 1
  ∧ exit_status (main str_of_value w) ≠ Exited 0.
Proof.
  intros Hin Hv.
  assert (Hrun : main str_of_value w = ([], Raise AttributeError)).
  { unfold main, json_load. rewrite Hin. by destruct v. }
  rewrite Hrun. by split_and!.
Qed.

End NonObject.

Lemma main_non_object_stdin_raises_witness :
  exit_status (main str_simple (world_of (StdinJSON (JArr [JInt 1])) unreachable))
  = Uncaught AttributeError.
Proof.
  apply (main_non_object_stdin_raises str_simple
           (world_of (StdinJSON (JArr [JInt 1])) unreachable) (JArr [JInt 1]));
    reflexivity.
Defined.

(** * Further properties of the script *)

(** ** Strings *)

Lemma append_nil (s : string) : "" +:+ s = s.
Proof. reflexivity. Qed.

Lemma append_cons (c : ascii) (s t : string) :
  String c s +:+ t = String c (s +:+ t).
Proof. reflexivity. Qed.

Lemma append_assoc (s1 s2 s3 : string) : (s1 +:+ s2) +:+ s3 = s1 +:+ (s2 +:+ s3).
Proof.
  induction s1 as [|c s1 IH]; [done|]. by rewrite !append_cons, IH.
Qed.

Lemma append_empty_r (s : string) : s +:+ "" = s.
Proof. induction s as [|c s IH]; [done|]. by rewrite append_cons, IH. Qed.

Lemma rev_app_append (s1 s2 : string) :
  String.rev_app s1 s2 = String.rev s1 +:+ s2.
Proof.
  unfold String.rev. revert s2.
  induction s1 as [|c s1 IH]; intros s2; cbn; [done|].
  rewrite (IH (String c s2)), (IH (String c "")).
  by rewrite append_assoc.
Qed.

Lemma rev_cons (c : ascii) (s : string) :
  String.rev (String c s) = String.rev s +:+ String c "".
Proof. unfold String.rev at 1. cbn. apply rev_app_append. Qed.

Lemma rev_append (s1 s2 : string) :
  String.rev (s1 +:+ s2) = String.rev s2 +:+ String.rev s1.
Proof.
  induction s1 as [|c s1 IH].
  - by rewrite append_nil, append_empty_r.
  - by rewrite append_cons, !rev_cons, IH, append_assoc.
Qed.

Lemma rev_involutive (s : string) : String.rev (String.rev s) = s.
Proof.
  induction s as [|c s IH]; [done|].
  by rewrite rev_cons, rev_append, IH.
Qed.

Lemma all_space_append (s1 s2 : string) :
  all_space (s1 +:+ s2) = all_space s1 && all_space s2.
Proof.
  induction s1 as [|c s1 IH]; [done|].
  rewrite append_cons. cbn. by rewrite IH, andb_assoc.
Qed.

Lemma all_space_rev (s : string) : all_space (String.rev s) = all_space s.
Proof.
  induction s as [|c s IH]; [done|].
  rewrite rev_cons, all_space_append, IH. cbn.
  by rewrite andb_true_r, andb_comm.
Qed.

Lemma lstrip_all_space (s : string) : all_space s = true → lstrip s = "".
Proof.
  induction s as [|c s IH]; cbn; [done|].
  intros [Hc Hs]%andb_true_iff. rewrite Hc. auto.
Qed.

Lemma lstrip_padding (pre s : string) :
  all_space pre = true → lstrip (pre +:+ s) = lstrip s.
Proof.
  induction pre as [|c pre IH]; [done|]. rewrite append_cons. cbn.
  intros [Hc Hs]%andb_true_iff. rewrite Hc. auto.
Qed.

Lemma lstrip_append (s t : string) :
  all_space s = false → lstrip (s +:+ t) = lstrip s +:+ t.
Proof.
  induction s as [|c s IH]; [done|]. rewrite append_cons. cbn.
  destruct (isspace c); cbn; [auto|by rewrite append_cons].
Qed.

Lemma lstrip_idempotent (s : string) : lstrip (lstrip s) = lstrip s.
Proof.
  induction s as [|c s IH]; cbn; [done|].
  destruct (isspace c) eqn:Hc; [done|]. cbn. by rewrite Hc.
Qed.

Lemma all_space_lstrip (s : string) : all_space (lstrip s) = all_space s.
Proof.
  induction s as [|c s IH]; cbn; [done|].
  destruct (isspace c) eqn:Hc; cbn; [done|]. by rewrite Hc.
Qed.

Lemma rstrip_padding (s post : string) :
  all_space post = true → rstrip (s +:+ post) = rstrip s.
Proof.
  intros Hpost. unfold rstrip.
  by rewrite rev_append, lstrip_padding by by rewrite all_space_rev.
Qed.

Lemma rstrip_all_space (s : string) : all_space s = true → rstrip s = "".
Proof.
  intros Hs. unfold rstrip.
  by rewrite lstrip_all_space by by rewrite all_space_rev.
Qed.

Lemma rstrip_idempotent (s : string) : rstrip (rstrip s) = rstrip s.
Proof. unfold rstrip. by rewrite rev_involutive, lstrip_idempotent. Qed.

Lemma strip_padding (pre s post : string) :
  all_space pre = true → all_space post = true →
  strip (pre +:+ s +:+ post) = strip s.
Proof.
  intros Hpre Hpost. unfold strip. rewrite (lstrip_padding _ _ Hpre).
  destruct (all_space s) eqn:Hs.
  - rewrite (lstrip_padding _ _ Hs), (lstrip_all_space _ Hpost).
    by rewrite (lstrip_all_space _ Hs).
  - by rewrite (lstrip_append _ _ Hs), (rstrip_padding _ _ Hpost).
Qed.

(** A stripped string starts with a character that is not white space,
    unless it is empty. *)
Lemma rstrip_keeps_head (c : ascii) (s : string) :
  isspace c = false → ∃ s', rstrip (String c s) = String c s'.
Proof.
  intros Hc. unfold rstrip. rewrite rev_cons.
  destruct (all_space (String.rev s)) eqn:Hs.
  - rewrite (lstrip_padding _ _ Hs). cbn. rewrite Hc. by exists "".
  - rewrite (lstrip_append _ _ Hs), rev_append.
    change (String.rev (String c "")) with (String c ""). rewrite append_cons.
    eauto.
Qed.

Lemma lstrip_head (s : string) (c : ascii) (u : string) :
  lstrip s = String c u → isspace c = false.
Proof.
  induction s as [|a s IH]; cbn; [done|].
  destruct (isspace a) eqn:Ha; [done|]. by intros [= <- _].
Qed.

Lemma lstrip_strip (s : string) : lstrip (strip s) = strip s.
Proof.
  unfold strip. destruct (lstrip s) as [|c u] eqn:Hu; [done|].
  pose proof (lstrip_head _ _ _ Hu) as Hc.
  destruct (rstrip_keeps_head c u Hc) as [s' ->]. cbn. by rewrite Hc.
Qed.

Lemma strip_idempotent (s : string) : strip (strip s) = strip s.
Proof.
  unfold strip at 1. rewrite lstrip_strip. unfold strip.
  apply rstrip_idempotent.
Qed.

Lemma rstrip_append_nonspace (a t : string) :
  all_space t = false → rstrip (a +:+ t) = a +:+ rstrip t.
Proof.
  intros Ht. unfold rstrip.
  rewrite rev_append, lstrip_append by by rewrite all_space_rev.
  by rewrite rev_append, rev_involutive.
Qed.

Lemma strip_nonempty_not_all_space (s : string) :
  strip s ≠ "" → all_space (strip s) = false.
Proof.
  intros Hne. pose proof (lstrip_strip s) as Hl.
  destruct (strip s) as [|c u]; [done|].
  cbn. cbn in Hl. destruct (isspace c) eqn:Hc; [|done].
  exfalso. pose proof (lstrip_head u c u) as Hhead.
  rewrite Hhead in Hc; done.
Qed.

Lemma startswith_usable (p : string) : startswith p "/dev/" = true → usable p.
Proof.
  unfold usable. intros Hp.
  split_and!; intros ->; by vm_compute in Hp.
Qed.

(** ** [get_tty] *)

(** X1.  White space around the output of [ps] (the newline it ends with,
    padding) does not change the terminal [get_tty] finds. *)
Theorem get_tty_ignores_padding (w w' : world) (pre out post : string) :
  all_space pre = true →
  all_space post = true →
  ps_tty w (getppid w) = PsStdout (pre +:+ out +:+ post) →
  ps_tty w' (getppid w') = PsStdout out →
  ttyname_stdin w = ttyname_stdin w' →
  ttyname_stdout w = ttyname_stdout w' →
  get_tty w = get_tty w'.
Proof.
  intros Hpre Hpost Hps Hps' Hin Hout. unfold get_tty.
  by rewrite Hps, Hps', (strip_padding _ _ _ Hpre Hpost), Hin, Hout.
Qed.

Lemma get_tty_ignores_padding_witness :
  get_tty (terminal_world (PsStdout ("  pts/1 " +:+ newline)) None None)
  = get_tty (terminal_world (PsStdout "pts/1") None None).
Proof.
  apply (get_tty_ignores_padding _ _ "  " "pts/1" (" " +:+ newline));
    reflexivity.
Defined.

(** X2.  [get_tty] returns [None] exactly when all three sources fail: [ps]
    raises or prints, white space aside, nothing or one of the placeholders
    [??] and [-], and [os.ttyname] fails for standard input and for
    standard output. *)
Theorem get_tty_fails_iff (w : world) :
  get_tty w = None ↔
    (∀ out, ps_tty w (getppid w) = PsStdout out → ¬ usable (strip out))
    ∧ ttyname_stdin w = None
    ∧ ttyname_stdout w = None.
Proof.
  unfold get_tty, usable.
  assert (Hfallback : ∀ P : Prop, P →
    (match ttyname_stdin w with
     | Some tty => Some tty
     | None => match ttyname_stdout w with Some tty => Some tty | None => None end
     end = None ↔ P ∧ ttyname_stdin w = None ∧ ttyname_stdout w = None)).
  { intros P HP. destruct (ttyname_stdin w), (ttyname_stdout w); split; try done;
      by intros (_ & ? & ?). }
  destruct (ps_tty w (getppid w)) as [|out].
  - apply Hfallback. by intros out [=].
  - destruct (String.eqb_spec (strip out) "") as [He|He]; cbn [negb andb].
    { apply Hfallback. intros out' [= <-] (? & _). done. }
    destruct (String.eqb_spec (strip out) "??") as [Hq|Hq]; cbn [negb andb].
    { apply Hfallback. intros out' [= <-] (_ & ? & _). done. }
    destruct (String.eqb_spec (strip out) "-") as [Hd|Hd]; cbn [negb andb].
    { apply Hfallback. intros out' [= <-] (_ & _ & ?). done. }
    split; [done|]. intros (Hps & _). exfalso. by apply (Hps out).
Qed.

Lemma get_tty_fails_iff_witness :
  get_tty (terminal_world (PsStdout ("??" +:+ newline)) None None) = None.
Proof.
  apply (get_tty_fails_iff (terminal_world (PsStdout ("??" +:+ newline)) None None)).
  split_and!; [|reflexivity..].
  intros out [= <-] (_ & Hq & _). by apply Hq.
Defined.

(** X3.  When [ps] prints a usable name, the answer of [get_tty] comes from
    it alone ([os.ttyname] is not consulted), starts with [/dev/], and is
    stable: a [ps] that prints this answer gets it back unchanged, so
    [/dev/] is never put in front twice. *)
Theorem get_tty_from_ps_is_stable (w : world) (out : string) :
  ps_tty w (getppid w) = PsStdout out →
  usable (strip out) →
  ∃ p,
    get_tty w = Some p
    ∧ startswith p "/dev/" = true
    ∧ (p = strip out ∨ p = "/dev/" +:+ strip out)
    ∧ ∀ w', ps_tty w' (getppid w') = PsStdout p → get_tty w' = Some p.
Proof.
  intros Hps (He & Hq & Hd).
  assert (∀ p, startswith p "/dev/" = true → strip p = p →
            ∀ w', ps_tty w' (getppid w') = PsStdout p → get_tty w' = Some p)
    as Hstable.
  { intros p Hp Hstrip w' Hps'. unfold get_tty. rewrite Hps', Hstrip.
    destruct (startswith_usable p Hp) as (He' & Hq' & Hd').
    apply String.eqb_neq in He', Hq', Hd'.
    by rewrite He', Hq', Hd', Hp. }
  unfold get_tty. rewrite Hps.
  apply String.eqb_neq in He as He', Hq as Hq', Hd as Hd'.
  rewrite He', Hq', Hd'. cbn [negb andb].
  destruct (startswith (strip out) "/dev/") eqn:Hdev; cbn [negb].
  - exists (strip out). split_and!; auto.
    apply Hstable; [done|apply strip_idempotent].
  - exists ("/dev/" +:+ strip out). split_and!; auto.
    + apply startswith_app.
    + apply Hstable; [apply startswith_app|].
      unfold strip at 1. change (lstrip ("/dev/" +:+ strip out))
        with ("/dev/" +:+ strip out).
      rewrite rstrip_append_nonspace
        by by apply strip_nonempty_not_all_space.
      f_equal. unfold strip. apply rstrip_idempotent.
Qed.

Lemma get_tty_from_ps_is_stable_witness :
  ∃ p,
    get_tty (terminal_world (PsStdout ("pts/1" +:+ newline)) (Some "/dev/pts/9") None)
    = Some p
    ∧ startswith p "/dev/" = true
    ∧ (p = strip ("pts/1" +:+ newline) ∨ p = "/dev/" +:+ strip ("pts/1" +:+ newline))
    ∧ ∀ w', ps_tty w' (getppid w') = PsStdout p → get_tty w' = Some p.
Proof.
  apply (get_tty_from_ps_is_stable
           (terminal_world (PsStdout ("pts/1" +:+ newline)) (Some "/dev/pts/9") None)
           ("pts/1" +:+ newline)).
  - reflexivity.
  - split_and!; by vm_compute.
Defined.

(** ** [send_event] *)

(** X4.  [send_event] absorbs the failures of the socket: no [OSError]
    and no [JSONDecodeError] ever leaves it, and it returns [None] whenever
    a socket call raises, the read returns no byte, or the reply is text
    that is not JSON.  A failure of the decoder that is not a
    [JSONDecodeError] is not absorbed: when the reply nests too deep or
    holds an integer that is too long, the decoder's exception leaves
    [send_event]. *)
Theorem send_event_absorbs_socket_errors (ch : channel) (r : gmap string json) :
  (∀ e, (send_event ch r).2 = Raise e →
        e ≠ JSONDecodeError ∧ ∀ o, e ≠ OSError o)
  ∧ (channel_error ch ∨ no_response ch ∨ recv_outcome ch = inr NotJSON →
     (send_event ch r).2 = Return JNull)
  ∧ (∀ f, wants_reply r = true → accepts ch →
          recv_outcome ch = inr (Unloadable f) →
          (send_event ch r).2 = Raise (loads_exn f)).
Proof.
  unfold accepts, channel_error, no_response.
  destruct (wants_reply r) eqn:Hr.
  - rewrite (send_event_reply _ _ Hr). split_and!.
    + intros e.
      destruct ch as [[?|] [?|] [?|] [?|[| | |[|]|?]]]; cbn;
        try discriminate; by intros [= <-].
    + destruct ch as [[?|] [?|] [?|] [?|[| | |[|]|?]]]; cbn; try done.
      all: intros [Hch|[Hch|Hch]]; try discriminate Hch.
      all: destruct Hch as [[? [=]]|[[? [=]]|[[? [=]]|[? [=]]]]].
    + intros f _ (-> & -> & ->) ->. reflexivity.
  - rewrite (send_event_no_reply _ _ Hr). cbn. split_and!; done.
Qed.

Lemma send_event_absorbs_socket_errors_witness :
  (send_event unreachable
     (record_of permission_world permission_request_bash
        "waiting_for_approval" (tool_fields never permission_request_bash))).2
  = Return JNull.
Proof.
  refine (proj1 (proj2 (send_event_absorbs_socket_errors unreachable _)) _).
  left. right. left. by eexists.
Defined.

(** X5.  [send_event] hands back the value the monitor sent: for an
    approval record, when connect and write succeed and the read returns
    the JSON text of [v], the result is [v]; and a result other than
    [None] has no other origin. *)
Theorem send_event_returns_the_reply (ch : channel) (r : gmap string json) (v : json) :
  (wants_reply r = true → accepts ch → recv_outcome ch = inr (JSONText v) →
   (send_event ch r).2 = Return v)
  ∧ ((send_event ch r).2 = Return v → v ≠ JNull →
     wants_reply r = true ∧ accepts ch ∧ recv_outcome ch = inr (JSONText v)).
Proof.
  unfold accepts. split.
  - intros Hr (Hso & Hco & Hsdo) Hro. rewrite (send_event_reply _ _ Hr).
    by rewrite Hso, Hco, Hsdo, Hro.
  - destruct (wants_reply r) eqn:Hr.
    + rewrite (send_event_reply _ _ Hr).
      destruct ch as [[?|] [?|] [?|] [?|[| | |[|]|?]]]; cbn;
        intros [= <-] Hv; done.
    + rewrite (send_event_no_reply _ _ Hr). cbn. by intros [= <-] Hv.
Qed.

Lemma send_event_returns_the_reply_witness :
  (send_event (listening (inr (JSONText (JObj deny_because_x))))
     (record_of permission_world permission_request_bash
        "waiting_for_approval" (tool_fields never permission_request_bash))).2
  = Return (JObj deny_because_x).
Proof.
  apply (send_event_returns_the_reply
           (listening (inr (JSONText (JObj deny_because_x))))).
  - by vm_compute.
  - by repeat split.
  - reflexivity.
Defined.

(** X6.  [send_event] closes the socket exactly when nothing raised before
    the [close] call: connect and write succeeded and, for an approval
    record, the read returned.  On every error path the socket is left
    open. *)
Theorem send_event_closes_iff (ch : channel) (r : gmap string json) :
  Close ∈ trace (send_event ch r) ↔
    accepts ch ∧ (wants_reply r = false ∨ ∃ bytes, recv_outcome ch = inr bytes).
Proof.
  unfold accepts. destruct (wants_reply r) eqn:Hr.
  - rewrite (send_event_reply _ _ Hr).
    destruct ch as [[?|] [?|] [?|] [?|[| | |[|]|?]]];
      unfold trace, calls_until_recv, calls_until_sendall, calls_until_connect;
      cbn [fst app socket_outcome connect_outcome sendall_outcome recv_outcome];
      rewrite ?elem_of_cons, elem_of_nil.
    all: split; [intros H; repeat destruct H as [H|H]; try done|].
    all: try (by intros ((? & ? & ?) & _)).
    all: try (by intros (_ & [?|[? ?]])).
    all: try (intros _; tauto).
    all: try (split; [done|right; eauto]).
  - rewrite (forward_trace _ _ Hr).
    destruct ch as [[?|] [?|] [?|] ro];
      unfold calls_until_sendall, calls_until_connect;
      cbn [app socket_outcome connect_outcome sendall_outcome recv_outcome];
      rewrite ?elem_of_cons, elem_of_nil.
    all: split; [intros H; repeat destruct H as [H|H]; try done|].
    all: try (by intros ((? & ? & ?) & _)).
    all: try (intros _; tauto).
    all: try (split; [done|by left]).
Qed.

Lemma send_event_closes_iff_witness :
  Close ∈ trace (send_event (listening (inl TimeoutError))
                   (record_of stop_world stop_event "waiting_for_input" ∅)).
Proof.
  apply (send_event_closes_iff (listening (inl TimeoutError))).
  split; [by repeat split|]. left. by vm_compute.
Defined.

(** X7.  The socket calls of [send_event] always start with the creation
    of the socket and follow one fixed order, each made at most once:
    socket, connect to the socket path, write of the record, the read (for
    an approval record only), close; a run stops at the first call that
    raises. *)
Theorem send_event_calls_in_order (ch : channel) (r : gmap string json) :
  trace (send_event ch r) `prefix_of` all_calls r
  ∧ ∃ rest, trace (send_event ch r) = Socket :: rest.
Proof.
  unfold all_calls. destruct (wants_reply r) eqn:Hr.
  - rewrite (send_event_reply _ _ Hr).
    destruct ch as [[?|] [?|] [?|] [?|[| | |[|]|?]]];
      unfold trace, calls_until_recv, calls_until_sendall, calls_until_connect;
      cbn [fst app socket_outcome connect_outcome sendall_outcome recv_outcome];
      (split; [|eauto]);
      repeat apply prefix_cons; try apply prefix_nil; done.
  - rewrite (forward_trace _ _ Hr).
    destruct ch as [[?|] [?|] [?|] ro];
      unfold calls_until_sendall, calls_until_connect;
      cbn [app socket_outcome connect_outcome sendall_outcome recv_outcome];
      (split; [|eauto]);
      repeat apply prefix_cons; try apply prefix_nil; done.
Qed.

(** ** [main]: the decision block *)

Lemma approval_exchange_run (ch : channel) (r : gmap string json) :
  wants_reply r = true →
  approval_exchange ch r =
    match socket_outcome ch, connect_outcome ch, sendall_outcome ch with
    | Some _, _, _ => ([Socket], Raise (SystemExit 0))
    | None, Some _, _ => (calls_until_connect, Raise (SystemExit 0))
    | None, None, Some _ => (calls_until_sendall r, Raise (SystemExit 0))
    | None, None, None =>
        match recv_outcome ch with
        | inl _ => (calls_until_recv r, Raise (SystemExit 0))
        | inr NoBytes | inr NotJSON =>
            (calls_until_recv r ++ [Close], Raise (SystemExit 0))
        | inr NotUtf8 => (calls_until_recv r ++ [Close], Raise UnicodeDecodeError)
        | inr (Unloadable f) =>
            (calls_until_recv r ++ [Close], Raise (loads_exn f))
        | inr (JSONText v) =>
            ((calls_until_recv r ++ [Close])
               ++ (permission_decision (A := unit) v).1,
             (permission_decision (A := unit) v).2)
        end
    end.
Proof.
  intros Hr. unfold approval_exchange. rewrite (send_event_reply _ _ Hr).
  destruct ch as [[?|] [?|] [?|] [?|[| | |[|]|v]]]; try reflexivity.
  cbn. unfold mbind, M_bind. by destruct (permission_decision v).
Qed.

Lemma py_eq_default_lookup (m : gmap string json) (k dflt lit : string) :
  String.eqb dflt lit = false →
  py_eq (default (JStr dflt) (m !! k)) lit = true ↔ m !! k = Some (JStr lit).
Proof.
  intros Hne. rewrite py_eq_true.
  destruct (m !! k) as [v|]; cbn.
  - split; [by intros ->|by intros [= ->]].
  - split; [|done]. intros [= ->]. by rewrite String.eqb_refl in Hne.
Qed.

Lemma stdout_calls (t : list effect) (A : Type) (res : result A) :
  Forall (λ e, match e with PrintLine _ => False | _ => True end) t →
  stdout (t, res) = [].
Proof.
  unfold stdout, trace. cbn [fst].
  induction 1 as [|e t He _ IH]; [done|]. cbn. rewrite IH. by destruct e.
Qed.

Section Decisions.

Variable str_of_value : json → string.

(** The runs of a [PermissionRequest] whose monitor answers with the JSON
    text of [v]. *)
Lemma permission_request_answered (w : world) (data : gmap string json) (v : json) :
  stdin w = StdinJSON (JObj data) →
  data !! "hook_event_name" = Some (JStr "PermissionRequest") →
  accepts (monitor w) →
  recv_outcome (monitor w) = inr (JSONText v) →
  stdout (main str_of_value w) = stdout (permission_decision (A := unit) v)
  ∧ exit_status (main str_of_value w)
    = exit_status (permission_decision (A := unit) v).
Proof.
  intros Hin Hname (Hso & Hco & Hsdo) Hro.
  destruct (main_permission_request str_of_value w data Hin Hname) as (r & Hr & ->).
  rewrite (approval_exchange_run _ _ Hr), Hso, Hco, Hsdo, Hro.
  destruct (permission_decision v) as [t res]. split; [|done].
  unfold stdout, trace. cbn [fst]. by rewrite !omap_app.
Qed.

(** X8.  Whatever is printed is a decision of the monitor: a line on
    standard output occurs only in a [PermissionRequest] run whose monitor
    answered with a JSON object with decision ["allow"] or ["deny"]; it is
    the matching directive, it is the only line, and the exit code is
    0. *)
Theorem printed_line_is_a_decision (w : world) (line : json) :
  line ∈ stdout (main str_of_value w) →
  ∃ data reply,
    stdin w = StdinJSON (JObj data)
    ∧ data !! "hook_event_name" = Some (JStr "PermissionRequest")
    ∧ answers (monitor w) reply
    ∧ (reply !! "decision" = Some (JStr "allow") ∧ line = allow_directive
       ∨ reply !! "decision" = Some (JStr "deny")
         ∧ line = deny_directive
                    (py_or (default (JStr "") (reply !! "reason"))
                           (JStr DEFAULT_DENY_MESSAGE)))
    ∧ stdout (main str_of_value w) = [line]
    ∧ exit_status (main str_of_value w) = Exited 0.
Proof.
  intros Hline. destruct (stdin_failure (stdin w)) as [e|] eqn:Hfail.
  { rewrite (main_stdin_failure _ _ _ Hfail) in Hline.
    by apply elem_of_nil in Hline. }
  apply stdin_failure_none in Hfail as [data Hin]. exists data.
  pose proof (main_cases str_of_value w data Hin) as Hrun.
  destruct (suppressed data).
  { rewrite Hrun in Hline. by apply elem_of_nil in Hline. }
  destruct Hrun as (ev & extra & _ & Hr & Hrun).
  destruct (py_eq _ "PermissionRequest") eqn:Hpr; cycle 1.
  { rewrite Hrun in Hline.
    destruct (fire_and_forget_observed (monitor w) _ Hr) as (_ & Hout & _).
    rewrite Hout in Hline. by apply elem_of_nil in Hline. }
  apply py_eq_default_lookup in Hpr; [|done].
  rewrite Hrun in *. clear Hrun. revert Hline.
  rewrite (approval_exchange_run _ _ Hr).
  destruct (monitor w) as [[?|] [?|] [?|] [?|[| | |[|]|v]]] eqn:Hch;
    cbn [socket_outcome connect_outcome sendall_outcome recv_outcome];
    try (rewrite stdout_calls by (repeat constructor); by intros ?%elem_of_nil).
  rewrite (permission_decision_cases (A := unit) v).
  destruct (truthy v);
    [|rewrite stdout_calls by (repeat constructor); by intros ?%elem_of_nil].
  destruct v as [| | | | | |reply];
    try (rewrite stdout_calls by (repeat constructor); by intros ?%elem_of_nil).
  destruct (py_eq _ "allow") eqn:Hallow.
  { apply py_eq_default_lookup in Hallow; [|done].
    unfold stdout, trace. cbn. intros ->%list_elem_of_singleton.
    exists reply. by split_and!; auto. }
  destruct (py_eq _ "deny") eqn:Hdeny.
  { apply py_eq_default_lookup in Hdeny; [|done].
    unfold stdout, trace. cbn. intros ->%list_elem_of_singleton.
    exists reply. by split_and!; auto. }
  rewrite stdout_calls by (repeat constructor). by intros ?%elem_of_nil.
Qed.

(** X9.  A decision that is neither the string ["allow"] nor the string
    ["deny"] (another string such as ["Allow"], a number, [null]) is
    treated as ["ask"]: nothing is printed and the exit code is 0. *)
Theorem other_decisions_print_nothing
    (w : world) (data reply : gmap string json) :
  stdin w = StdinJSON (JObj data) →
  data !! "hook_event_name" = Some (JStr "PermissionRequest") →
  answers (monitor w) reply →
  reply !! "decision" ≠ Some (JStr "allow") →
  reply !! "decision" ≠ Some (JStr "deny") →
  stdout (main str_of_value w) = []
  ∧ exit_status (main str_of_value w) = Exited 0.
Proof.
  intros Hin Hname (Hso & Hco & Hsdo & Hro) Hallow Hdeny.
  destruct (permission_request_answered w data (JObj reply) Hin Hname)
    as [-> ->]; [done..|].
  rewrite permission_decision_cases.
  destruct (truthy (JObj reply)); [|done].
  destruct (py_eq _ "allow") eqn:Ha.
  { apply py_eq_default_lookup in Ha; done. }
  destruct (py_eq _ "deny") eqn:Hd; [|done].
  apply py_eq_default_lookup in Hd; done.
Qed.

(** X10.  A ["deny"] whose reason is present but false in Python's sense
    (an empty string, [null], 0) gets the default message, like a ["deny"]
    without reason. *)
Theorem deny_with_empty_reason_uses_default
    (w : world) (data reply : gmap string json) (reason : json) :
  stdin w = StdinJSON (JObj data) →
  data !! "hook_event_name" = Some (JStr "PermissionRequest") →
  answers (monitor w) reply →
  reply !! "decision" = Some (JStr "deny") →
  reply !! "reason" = Some reason →
  truthy reason = false →
  stdout (main str_of_value w) = [deny_directive (JStr DEFAULT_DENY_MESSAGE)]
  ∧ exit_status (main str_of_value w) = Exited 0.
Proof.
  intros Hin Hname (Hso & Hco & Hsdo & Hro) Hdecision Hreason Hfalsy.
  destruct (permission_request_answered w data (JObj reply) Hin Hname)
    as [-> ->]; [done..|].
  rewrite permission_decision_cases, (truthy_object_lookup _ _ _ Hdecision).
  rewrite Hdecision, Hreason. cbn [default from_option id].
  unfold py_or. by rewrite Hfalsy.
Qed.

(** X11.  A reply that is JSON but not an object: when it is false in
    Python's sense ([null], [false], 0, an empty string or array) the run
    ends like one without response, exit code 0 and nothing printed; when
    it is true (a non-empty string or array, a number, [true]) the
    [.get] on it raises an [AttributeError] that nothing catches. *)
Theorem reply_that_is_not_an_object
    (w : world) (data : gmap string json) (v : json) :
  stdin w = StdinJSON (JObj data) →
  data !! "hook_event_name" = Some (JStr "PermissionRequest") →
  accepts (monitor w) →
  recv_outcome (monitor w) = inr (JSONText v) →
  is_object v = false →
  stdout (main str_of_value w) = []
  ∧ exit_status (main str_of_value w)
    = if truthy v then Uncaught AttributeError else Exited 0.
Proof.
  intros Hin Hname Hch Hro Hv.
  destruct (permission_request_answered w data v Hin Hname Hch Hro) as [-> ->].
  rewrite permission_decision_cases.
  destruct (truthy v); [|done]. by destruct v.
Qed.

End Decisions.

(** ** [main]: the record *)

Lemma record_of_base_lookup (w : world) (data : gmap string json) ev extra k :
  dom extra ## base_fields → k ∈ base_fields →
  record_of w data ev extra !! k
  = (<["event_type" := JStr ev]> (base_record w data)) !! k.
Proof.
  intros Hdisj Hk. unfold record_of. apply lookup_union_r.
  apply not_elem_of_dom. intros Hin. by apply (Hdisj k).
Qed.

Section Records.

Variable str_of_value : json → string.

Lemma table_event_type (data : gmap string json) ev extra :
  table_4_1 str_of_value truthy data = Emit ev extra → ev ∈ event_types.
Proof.
  unfold table_4_1, event_types.
  generalize (default (JStr "") (data !! "hook_event_name")). intros name.
  repeat name_case name.
  all: try (destruct (py_eq _ "permission_prompt"); [discriminate|];
            destruct (py_eq _ "idle_prompt")).
  all: intros [= <- _]; set_solver.
Qed.

Lemma sent_main_row (w : world) (r : gmap string json) :
  r ∈ sent (main str_of_value w) →
  ∃ data ev extra,
    stdin w = StdinJSON (JObj data)
    ∧ table_4_1 str_of_value truthy data = Emit ev extra
    ∧ dom extra ## base_fields
    ∧ r = record_of w data ev extra.
Proof.
  intros Hr.
  destruct (sent_main_record str_of_value w r Hr)
    as (data & ev & extra & Hin & Hrow & ->).
  exists data, ev, extra. split_and!; try done.
  destruct (table_emit _ _ _ _ Hrow) as (_ & _ & Hdom & _).
  pose proof (column_disjoint data). set_solver.
Qed.

(** X12.  Every record written to the socket has an [event_type], and it
    is one of the eight types the script knows: processing, running_tool,
    waiting_for_approval, waiting_for_input, notification, session_start,
    session_end, compacting. *)
Theorem event_type_is_canonical (w : world) (r : gmap string json) :
  r ∈ sent (main str_of_value w) →
  ∃ ev, ev ∈ event_types ∧ r !! "event_type" = Some (JStr ev).
Proof.
  intros Hr.
  destruct (sent_main_row w r Hr) as (data & ev & extra & _ & Hrow & Hdisj & ->).
  exists ev. split; [by apply (table_event_type data ev extra)|].
  rewrite record_of_base_lookup by (done || (unfold base_fields; set_solver)).
  apply lookup_insert_eq.
Qed.

(** X13.  Every record written carries the session id and the working
    directory of the inbound record, ["unknown"] and the empty string when
    the inbound record has none, and as [pid] the parent's process id,
    whatever the inbound record holds under [pid]. *)
Theorem base_fields_of_every_record (w : world) (r : gmap string json) :
  r ∈ sent (main str_of_value w) →
  ∃ data,
    stdin w = StdinJSON (JObj data)
    ∧ r !! "session_id" = Some (default (JStr "unknown") (data !! "session_id"))
    ∧ r !! "cwd" = Some (default (JStr "") (data !! "cwd"))
    ∧ r !! "pid" = Some (JInt (getppid w)).
Proof.
  intros Hr.
  destruct (sent_main_row w r Hr) as (data & ev & extra & Hin & _ & Hdisj & ->).
  exists data. split; [done|].
  rewrite !record_of_base_lookup by (done || (unfold base_fields; set_solver)).
  unfold base_record.
  split_and!; repeat (rewrite lookup_insert_ne by done); apply lookup_insert_eq.
Qed.

(** X14.  A run depends on the inbound record through the eight fields
    [main] reads only: two runs in the same surroundings whose inbound
    objects agree on session_id, hook_event_name, cwd, tool_input,
    tool_name, tool_use_id, notification_type and message make the same
    calls with the same records and end the same way, whatever else the
    objects hold. *)
Theorem run_depends_on_fields_read (w1 w2 : world) (d1 d2 : gmap string json) :
  stdin w1 = StdinJSON (JObj d1) →
  stdin w2 = StdinJSON (JObj d2) →
  (∀ k, k ∈ fields_read → d1 !! k = d2 !! k) →
  getppid w1 = getppid w2 →
  get_tty w1 = get_tty w2 →
  monitor w1 = monitor w2 →
  main str_of_value w1 = main str_of_value w2.
Proof.
  intros Hin1 Hin2 Hfields Hpid Htty Hch.
  rewrite (main_dispatch _ _ _ Hin1), (main_dispatch _ _ _ Hin2).
  assert (Forall (λ k, d1 !! k = d2 !! k) fields_read) as Hf
    by by apply Forall_forall.
  unfold fields_read in Hf.
  repeat match type of Hf with
         | Forall _ (_ :: _) =>
             let H := fresh "Hk" in
             apply Forall_cons in Hf as [H Hf]
         end.
  clear Hf Hfields.
  assert (base_record w1 d1 = base_record w2 d2) as Hbase.
  { unfold base_record. by rewrite Hpid, Htty, Hk, Hk1. }
  assert (table_4_1 str_of_value truthy d1 = table_4_1 str_of_value truthy d2)
    as ->.
  { unfold table_4_1, tool_fields, notice_fields.
    by rewrite Hk0, Hk2, Hk3, Hk4, Hk5, Hk6. }
  destruct (table_4_1 str_of_value truthy d2) as [|ev extra]; [done|].
  unfold relay, record_of. by rewrite Hbase, Hch.
Qed.

End Records.

(** ** [main]: how a run ends and what it calls *)

Lemma approval_exchange_same (ch : channel) (r r' : gmap string json) :
  wants_reply r = true → wants_reply r' = true →
  stdout (approval_exchange ch r) = stdout (approval_exchange ch r')
  ∧ exit_status (approval_exchange ch r) = exit_status (approval_exchange ch r').
Proof.
  intros Hr Hr'.
  rewrite (approval_exchange_run _ _ Hr), (approval_exchange_run _ _ Hr').
  destruct ch as [[?|] [?|] [?|] [?|[| | |[|]|v]]];
    cbn [socket_outcome connect_outcome sendall_outcome recv_outcome];
    try done.
  all: destruct (permission_decision v) as [t res]; split; [|done].
  all: unfold stdout, trace; cbn [fst]; by rewrite !omap_app.
Qed.

Section Ends.

Variable str_of_value : json → string.

(** X15.  A failure of the JSON decoder that is not a [JSONDecodeError]
    is handled nowhere and ends the run with an uncaught exception (a
    traceback, exit code 1) and nothing printed: standard input that does
    not decode to text, standard input or, in a [PermissionRequest] run
    whose connect and write succeeded, a reply that nests too deep or
    holds an integer that is too long.  On standard input the run ends
    before any call on the socket. *)
Theorem decoder_failures_end_main (w : world) (f : loads_failure) :
  (stdin w = StdinUndecodable →
   main str_of_value w = ([], Raise UnicodeDecodeError))
  ∧ (stdin w = StdinUnloadable f →
     main str_of_value w = ([], Raise (loads_exn f)))
  ∧ (∀ data,
       stdin w = StdinJSON (JObj data) →
       data !! "hook_event_name" = Some (JStr "PermissionRequest") →
       accepts (monitor w) →
       recv_outcome (monitor w) = inr (Unloadable f) →
       exit_status (main str_of_value w) = Uncaught (loads_exn f)
       ∧ exit_code (main str_of_value w) = 1%Z
       ∧ stdout (main str_of_value w) = []).
Proof.
  split_and!.
  - intros Hin. apply main_stdin_failure. by rewrite Hin.
  - intros Hin. apply main_stdin_failure. by rewrite Hin.
  - intros data Hin Hname (Hso & Hco & Hsdo) Hro.
    destruct (main_permission_request str_of_value w data Hin Hname)
      as (r & Hr & ->).
    rewrite (approval_exchange_run _ _ Hr), Hso, Hco, Hsdo, Hro.
    unfold exit_code. by destruct f.
Qed.

(** X16.  What a run prints and how it ends do not depend on the process
    table or the terminal: two runs with the same standard input and the
    same monitor print the same lines and end with the same status,
    whatever [os.getppid], [ps] and [os.ttyname] answer. *)
Theorem run_ignores_terminal_context (w1 w2 : world) :
  stdin w1 = stdin w2 →
  monitor w1 = monitor w2 →
  stdout (main str_of_value w1) = stdout (main str_of_value w2)
  ∧ exit_status (main str_of_value w1) = exit_status (main str_of_value w2).
Proof.
  intros Hstdin Hch. destruct (stdin_failure (stdin w2)) as [e|] eqn:Hfail.
  { rewrite (main_stdin_failure _ w2 _ Hfail). rewrite <- Hstdin in Hfail.
    by rewrite (main_stdin_failure _ w1 _ Hfail). }
  apply stdin_failure_none in Hfail as [data Hin]. rewrite Hin in Hstdin.
  pose proof (main_cases str_of_value w1 data Hstdin) as Hrun1.
  pose proof (main_cases str_of_value w2 data Hin) as Hrun2.
  destruct (suppressed data); [by rewrite Hrun1, Hrun2|].
  destruct Hrun1 as (ev1 & extra1 & _ & Hr1 & ->).
  destruct Hrun2 as (ev2 & extra2 & _ & Hr2 & ->).
  rewrite Hch. destruct (py_eq _ "PermissionRequest").
  - by apply approval_exchange_same.
  - destruct (fire_and_forget_observed (monitor w2) _ Hr1) as (-> & -> & _).
    by destruct (fire_and_forget_observed (monitor w2) _ Hr2) as (-> & -> & _).
Qed.

(** X17.  In every run, whatever standard input holds and whatever the
    monitor does, at most one socket is opened, at most one record is
    written, at most one read is made and at most one line is printed. *)
Theorem at_most_one_of_each_call (w : world) :
  (sockets_opened (main str_of_value w) ≤ 1)%nat
  ∧ (length (sent (main str_of_value w)) ≤ 1)%nat
  ∧ (length (List.filter is_recv (trace (main str_of_value w))) ≤ 1)%nat
  ∧ (length (stdout (main str_of_value w)) ≤ 1)%nat.
Proof.
  destruct (stdin_failure (stdin w)) as [e|] eqn:Hfail.
  { rewrite (main_stdin_failure _ _ _ Hfail). cbn. lia. }
  apply stdin_failure_none in Hfail as [data Hin].
  pose proof (main_cases str_of_value w data Hin) as Hrun.
  destruct (suppressed data); [rewrite Hrun; cbn; lia|].
  destruct Hrun as (ev & extra & _ & Hr & ->).
  revert Hr. generalize (record_of w data ev extra). intros r Hr.
  destruct (py_eq _ "PermissionRequest").
  - rewrite sockets_opened_approval_exchange, sent_approval_exchange.
    split; [done|]. split; [destruct (connects (monitor w)); cbn; lia|].
    rewrite (approval_exchange_run _ _ Hr).
    destruct (monitor w) as [[?|] [?|] [?|] [?|[| | |[|]|v]]];
      cbn [socket_outcome connect_outcome sendall_outcome recv_outcome].
    all: try rewrite (permission_decision_cases (A := unit) v).
    all: try (destruct (truthy v); [destruct v|]).
    all: try (destruct (py_eq _ "allow"); [|destruct (py_eq _ "deny")]).
    all: unfold stdout, trace, calls_until_recv, calls_until_sendall,
           calls_until_connect; cbn; lia.
  - rewrite sent_fire_and_forget.
    destruct (fire_and_forget_observed (monitor w) _ Hr) as (_ & -> & -> & _).
    split; [done|]. split; [destruct (connects (monitor w)); cbn; lia|].
    split; [|cbn; lia].
    rewrite (forward_run _ _ Hr), (forward_trace _ _ Hr).
    destruct (socket_outcome (monitor w)), (connect_outcome (monitor w)),
      (sendall_outcome (monitor w));
      unfold trace, calls_until_sendall, calls_until_connect; cbn; lia.
Qed.

(** X18.  A directive is printed only after the whole exchange: when a
    line is printed, the calls of the run are the socket, the connect, the
    write of the record, the read and the close, and then the print. *)
Theorem directive_printed_after_close (w : world) (line : json) :
  line ∈ stdout (main str_of_value w) →
  ∃ r, trace (main str_of_value w)
       = calls_until_recv r ++ [Close; PrintLine line].
Proof.
  intros Hline. destruct (stdin_failure (stdin w)) as [e|] eqn:Hfail.
  { rewrite (main_stdin_failure _ _ _ Hfail) in Hline.
    by apply elem_of_nil in Hline. }
  apply stdin_failure_none in Hfail as [data Hin].
  pose proof (main_cases str_of_value w data Hin) as Hrun.
  destruct (suppressed data).
  { rewrite Hrun in Hline. by apply elem_of_nil in Hline. }
  destruct Hrun as (ev & extra & _ & Hr & Hrun).
  rewrite Hrun in *. clear Hrun. exists (record_of w data ev extra).
  destruct (py_eq _ "PermissionRequest"); cycle 1.
  { destruct (fire_and_forget_observed (monitor w) _ Hr) as (_ & Hout & _).
    rewrite Hout in Hline. by apply elem_of_nil in Hline. }
  revert Hline. rewrite (approval_exchange_run _ _ Hr).
  destruct (monitor w) as [[?|] [?|] [?|] [?|[| | |[|]|v]]];
    cbn [socket_outcome connect_outcome sendall_outcome recv_outcome];
    try (rewrite stdout_calls by (repeat constructor); by intros ?%elem_of_nil).
  rewrite (permission_decision_cases (A := unit) v).
  destruct (truthy v);
    [|rewrite stdout_calls by (repeat constructor); by intros ?%elem_of_nil].
  destruct v as [| | | | | |reply];
    try (rewrite stdout_calls by (repeat constructor); by intros ?%elem_of_nil).
  destruct (py_eq _ "allow").
  { unfold stdout, trace. cbn. intros ->%list_elem_of_singleton. done. }
  destruct (py_eq _ "deny").
  { unfold stdout, trace. cbn. intros ->%list_elem_of_singleton. done. }
  rewrite stdout_calls by (repeat constructor). by intros ?%elem_of_nil.
Qed.

End Ends.

(** ** Concrete runs of the further properties *)

Lemma answered_with_run (v : json) :
  stdout (main str_simple (answered_with v))
  = stdout (permission_decision (A := unit) v)
  ∧ exit_status (main str_simple (answered_with v))
    = exit_status (permission_decision (A := unit) v).
Proof.
  apply (permission_request_answered str_simple (answered_with v)
           permission_request_bash v); by repeat split.
Qed.

Lemma deny_because_x_printed :
  stdout (main str_simple (answered_with (JObj deny_because_x)))
  = [deny_directive (JStr "x")].
Proof. by rewrite (proj1 (answered_with_run _)). Qed.

Lemma printed_line_is_a_decision_witness :
  ∃ data reply,
    stdin (answered_with (JObj deny_because_x)) = StdinJSON (JObj data)
    ∧ data !! "hook_event_name" = Some (JStr "PermissionRequest")
    ∧ answers (monitor (answered_with (JObj deny_because_x))) reply
    ∧ (reply !! "decision" = Some (JStr "allow")
       ∧ deny_directive (JStr "x") = allow_directive
       ∨ reply !! "decision" = Some (JStr "deny")
         ∧ deny_directive (JStr "x")
           = deny_directive
               (py_or (default (JStr "") (reply !! "reason"))
                      (JStr DEFAULT_DENY_MESSAGE)))
    ∧ stdout (main str_simple (answered_with (JObj deny_because_x)))
      = [deny_directive (JStr "x")]
    ∧ exit_status (main str_simple (answered_with (JObj deny_because_x)))
      = Exited 0.
Proof.
  apply (printed_line_is_a_decision str_simple
           (answered_with (JObj deny_because_x)) (deny_directive (JStr "x"))).
  rewrite deny_because_x_printed. apply list_elem_of_here.
Defined.

Lemma other_decisions_print_nothing_witness :
  stdout (main str_simple (answered_with (JObj capital_allow))) = []
  ∧ exit_status (main str_simple (answered_with (JObj capital_allow))) = Exited 0.
Proof.
  apply (other_decisions_print_nothing str_simple
           (answered_with (JObj capital_allow))
           permission_request_bash capital_allow).
  - reflexivity.
  - reflexivity.
  - by repeat split.
  - by vm_compute.
  - by vm_compute.
Defined.

Lemma deny_with_empty_reason_uses_default_witness :
  stdout (main str_simple (answered_with (JObj deny_empty_reason)))
  = [deny_directive (JStr DEFAULT_DENY_MESSAGE)]
  ∧ exit_status (main str_simple (answered_with (JObj deny_empty_reason)))
    = Exited 0.
Proof.
  apply (deny_with_empty_reason_uses_default str_simple
           (answered_with (JObj deny_empty_reason))
           permission_request_bash deny_empty_reason (JStr "")).
  - reflexivity.
  - reflexivity.
  - by repeat split.
  - reflexivity.
  - reflexivity.
  - reflexivity.
Defined.

Lemma reply_that_is_not_an_object_witness :
  stdout (main str_simple (answered_with (JStr "allow"))) = []
  ∧ exit_status (main str_simple (answered_with (JStr "allow")))
    = Uncaught AttributeError.
Proof.
  apply (reply_that_is_not_an_object str_simple
           (answered_with (JStr "allow")) permission_request_bash (JStr "allow")).
  - reflexivity.
  - reflexivity.
  - by repeat split.
  - reflexivity.
  - reflexivity.
Defined.

Lemma event_type_is_canonical_witness :
  ∃ ev, ev ∈ event_types
        ∧ record_of stop_world stop_event "waiting_for_input" ∅ !! "event_type"
          = Some (JStr ev).
Proof.
  apply (event_type_is_canonical str_simple stop_world).
  rewrite stop_world_sent. apply list_elem_of_here.
Defined.

Lemma base_fields_of_every_record_witness :
  ∃ data,
    stdin stop_world = StdinJSON (JObj data)
    ∧ record_of stop_world stop_event "waiting_for_input" ∅ !! "session_id"
      = Some (default (JStr "unknown") (data !! "session_id"))
    ∧ record_of stop_world stop_event "waiting_for_input" ∅ !! "cwd"
      = Some (default (JStr "") (data !! "cwd"))
    ∧ record_of stop_world stop_event "waiting_for_input" ∅ !! "pid"
      = Some (JInt (getppid stop_world)).
Proof.
  apply (base_fields_of_every_record str_simple stop_world).
  rewrite stop_world_sent. apply list_elem_of_here.
Defined.

Lemma run_depends_on_fields_read_witness :
  main str_simple (world_of (StdinJSON (JObj stop_event)) (listening (inr NoBytes)))
  = main str_simple
      (world_of (StdinJSON (JObj stop_event_with_transcript))
                (listening (inr NoBytes))).
Proof.
  apply (run_depends_on_fields_read str_simple _ _
           stop_event stop_event_with_transcript); try reflexivity.
  intros k Hk. unfold fields_read in Hk.
  rewrite !elem_of_cons, elem_of_nil in Hk.
  repeat destruct Hk as [->|Hk]; try reflexivity. done.
Defined.

Lemma decoder_failures_end_main_witness :
  exit_status (main str_simple deeply_nested_reply_world)
  = Uncaught RecursionError
  ∧ exit_code (main str_simple deeply_nested_reply_world) = 1%Z
  ∧ stdout (main str_simple deeply_nested_reply_world) = [].
Proof.
  refine (proj2 (proj2 (decoder_failures_end_main str_simple
                          deeply_nested_reply_world NestingTooDeep))
            permission_request_bash _ _ _ _).
  - reflexivity.
  - by vm_compute.
  - by repeat split.
  - reflexivity.
Defined.

Lemma run_ignores_terminal_context_witness :
  stdout (main str_simple stop_world)
  = stdout (main str_simple stop_world_on_terminal)
  ∧ exit_status (main str_simple stop_world)
    = exit_status (main str_simple stop_world_on_terminal).
Proof.
  apply (run_ignores_terminal_context str_simple
           stop_world stop_world_on_terminal); reflexivity.
Defined.

Lemma directive_printed_after_close_witness :
  ∃ r, trace (main str_simple (answered_with (JObj deny_because_x)))
       = calls_until_recv r ++ [Close; PrintLine (deny_directive (JStr "x"))].
Proof.
  apply (directive_printed_after_close str_simple
           (answered_with (JObj deny_because_x))).
  rewrite deny_because_x_printed. apply list_elem_of_here.
Defined.
